(** * Password-reset code workflow of [FirebaseService]

    A shallow embedding of the password-reset methods of
    [elite-glam-backend/src/firebase/firebase.service.ts]
    ([sendPasswordResetCode], [verifyPasswordResetCode], [resetPassword],
    [getUserByEmail]) together with the JavaScript primitives they use:
    binary64 arithmetic for [Math.floor(100000 + Math.random() * 900000)],
    [Number.prototype.toString] on integral values, and the
    [Map<string, {code, expires}>] that holds the outstanding codes. *)

From Stdlib Require Import ZArith Lia String Ascii List Bool.
From Stdlib Require Import SpecFloat DecimalString DecimalZ DecimalPos DecimalFacts.
From stdpp Require Import gmap strings.

Local Open Scope Z_scope.

(** ** JavaScript Numbers

    A Number is an IEEE 754 binary64 value; the operations are those of the
    Standard Library's executable specification of binary floating point,
    instantiated at 53 bits of precision. *)

Module Number.

Definition prec : Z := 53.
Definition emax : Z := 1024.

(** [x * y] and [x + y] on Numbers, rounding to nearest, ties to even. *)
Definition mul : spec_float -> spec_float -> spec_float := SFmul prec emax.
Definition add : spec_float -> spec_float -> spec_float := SFadd prec emax.

(** The Number denoted by an integer literal. *)
Definition of_Z (z : Z) : spec_float := binary_normalize prec emax z 0 false.

(** [Math.floor]: NaN, the infinities and the zeros are returned as they
    are; a finite value with a non-negative exponent is already integral. *)
Definition floor (x : spec_float) : spec_float :=
  match x with
  | S754_finite s m e =>
      if 0 <=? e then x
      else binary_normalize prec emax (cond_Zopp s (Zpos m) / 2 ^ (- e)) 0 s
  | _ => x
  end.

(** The mathematical value of a Number when that value is an integer. *)
Definition to_integer (x : spec_float) : option Z :=
  match x with
  | S754_zero _ => Some 0
  | S754_finite s m e =>
      if 0 <=? e then Some (cond_Zopp s (Zpos m * 2 ^ e))
      else if Zpos m mod 2 ^ (- e) =? 0
           then Some (cond_Zopp s (Zpos m / 2 ^ (- e)))
           else None
  | _ => None
  end.

(** Decimal digits of an integer, with a leading minus sign when negative. *)
Definition decimal (z : Z) : string := NilZero.string_of_int (Z.to_int z).

(** [Number.prototype.toString()] in radix 10, on the fragment this
    service reaches: NaN, the infinities, and integral values below
    [10^21] (which print as plain decimal digits).  Fractional values and
    magnitudes from [10^21] on are outside the fragment ([None]). *)
Definition toString (x : spec_float) : option string :=
  match x with
  | S754_nan => Some "NaN"%string
  | S754_infinity false => Some "Infinity"%string
  | S754_infinity true => Some "-Infinity"%string
  | _ =>
      match to_integer x with
      | Some z => if Z.abs z <? 10 ^ 21 then Some (decimal z) else None
      | None => None
      end
  end.

(** What ECMAScript promises of [Math.random()]: a Number with positive
    sign, greater than or equal to +0 and strictly less than 1. *)
Definition unit_interval (x : spec_float) : bool :=
  match x with
  | S754_zero false => true
  | S754_finite false m e =>
      bounded prec emax m e && (e <? 0) && (Zpos m <? 2 ^ (- e))
  | _ => false
  end.

End Number.

(** [Math.floor(100000 + Math.random() * 900000).toString()], as a function
    of the value [rnd] that [Math.random()] returned. *)
Definition generate_code (rnd : spec_float) : option string :=
  Number.toString
    (Number.floor
       (Number.add (Number.of_Z 100000)
                   (Number.mul rnd (Number.of_Z 900000)))).

(** ** Shape of a code *)

(** ['0'] to ['9'] *)
Definition is_digit (c : ascii) : bool :=
  (48 <=? N_of_ascii c)%N && (N_of_ascii c <=? 57)%N.

(** A string of exactly six decimal digits, the first of which is not
    ['0']. *)
Definition is_six_digit_code (s : string) : bool :=
  (String.length s =? 6)%nat
  && forallb is_digit (list_ascii_of_string s)
  && negb (String.prefix "0" s).

(** The integer a string of decimal digits denotes. *)
Definition parse_decimal (s : string) : option Z :=
  option_map Z.of_int (NilZero.int_of_string s).

(** ** Errors, promises and the service monad *)

(** The exception classes the service throws.  [PlainError] is JavaScript's
    [Error], which is also what the Firebase SDK's errors extend. *)
Inductive ErrorClass := PlainError | BadRequestException | UnauthorizedException.

(** [interface FirebaseError extends Error { code?: string }] *)
Record JsError := {
  err_class : ErrorClass;
  err_code : option string;
  err_message : string
}.

(** [new Error(msg)] *)
Definition new_Error (msg : string) : JsError :=
  {| err_class := PlainError; err_code := None; err_message := msg |}.

(** [new BadRequestException(msg)] and [new UnauthorizedException(msg)] *)
Definition new_Exception (cls : ErrorClass) (msg : string) : JsError :=
  {| err_class := cls; err_code := None; err_message := msg |}.

(** [s || d] on strings: the empty string is falsy. *)
Definition or_else (s d : string) : string :=
  if String.eqb s "" then d else s.

(** The state in which an awaited promise of an external collaborator
    settles. *)
Inductive Settled (A : Type) :=
  | Fulfilled (a : A)
  | Rejected (e : JsError).
Arguments Fulfilled {A} a.
Arguments Rejected {A} e.

(** How a method call completes.  [Unmodelled] marks a run that leaves the
    modelled fragment of JavaScript (see [Number.toString]). *)
Inductive Outcome (A : Type) :=
  | Return (a : A)
  | Throw (e : JsError)
  | Unmodelled.
Arguments Return {A} a.
Arguments Throw {A} e.
Arguments Unmodelled {A}.

(** The values of [resetCodes]: [{ code: string; expires: Date }].  A [Date]
    is its time value, an integer number of milliseconds since the epoch;
    comparing two [Date]s with [>] compares their time values. *)
Module ResetEntry.
Record t := mk { code : string; expires : Z }.
End ResetEntry.

(** [private resetCodes = new Map<string, { code: string; expires: Date }>()] *)
Abbreviation ResetCodes := (gmap string ResetEntry.t).

(** A method of the service: it reads and mutates [this.resetCodes] and
    completes normally or abruptly.  A mutation made before a [throw] stays.
    Calls are taken one at a time: a call runs to its end, across its
    [await]s, before the next call on the same service starts. *)
Definition M (A : Type) : Type := ResetCodes -> Outcome A * ResetCodes.

Definition ret {A} (a : A) : M A := fun st => (Return a, st).

Definition throw {A} (e : JsError) : M A := fun st => (Throw e, st).

Definition bind {A B} (c : M A) (k : A -> M B) : M B :=
  fun st =>
    match c st with
    | (Return a, st') => k a st'
    | (Throw e, st') => (Throw e, st')
    | (Unmodelled, st') => (Unmodelled, st')
    end.

(** [try { body } catch (error) { handler }] *)
Definition try_catch {A} (body : M A) (handler : JsError -> M A) : M A :=
  fun st =>
    match body st with
    | (Throw e, st') => handler e st'
    | r => r
    end.

(** [await p] for a promise of an external collaborator. *)
Definition await {A} (p : Settled A) : M A :=
  fun st =>
    match p with
    | Fulfilled a => (Return a, st)
    | Rejected e => (Throw e, st)
    end.

(** A value of a partially modelled primitive: the run leaves the model
    where the primitive is not modelled. *)
Definition modelled {A} (o : option A) : M A :=
  fun st =>
    match o with
    | Some a => (Return a, st)
    | None => (Unmodelled, st)
    end.

Declare Scope js_scope.
Delimit Scope js_scope with js.
Notation "'do' x <- c1 ; c2" := (bind c1 (fun x => c2))
  (at level 10, x name, c1 at level 100, c2 at level 200) : js_scope.
Notation "'run' c1 ; c2" := (bind c1 (fun _ => c2))
  (at level 10, c1 at level 100, c2 at level 200) : js_scope.

(** [this.resetCodes.get(k)], [.set(k, v)] and [.delete(k)].  Keys are
    compared as strings. *)
Definition resetCodes_get (k : string) : M (option ResetEntry.t) :=
  fun st => (Return (st !! k), st).

Definition resetCodes_set (k : string) (v : ResetEntry.t) : M unit :=
  fun st => (Return tt, <[k := v]> st).

Definition resetCodes_delete (k : string) : M unit :=
  fun st => (Return tt, delete k st).

(** ** Data of the managed platform *)

Record Address := {
  street : option string;
  city : option string;
  state : option string;
  zipCode : option string;
  country : option string;
  phoneNumber : option string
}.

(** The [profile] object of a user, which is also the shape of the
    [profileData] argument of [updateUserProfile]; an absent field is
    [undefined]. *)
Record Profile := {
  firstName : option string;
  lastName : option string;
  photoURL : option string;
  bio : option string;
  address : option Address
}.

(** [export interface UserRecord] of [database.types], with the two fields
    [createUserRecord] assigns for shop owners.  [role] is a string at run
    time; [createUserRecord] compares it with ['shop_owner'] and
    ['customer']. *)
Record UserRecord := {
  uid : string;
  username : string;
  email : string;
  role : option string;
  createdAt : Z;
  updatedAt : Z;
  profile : option Profile;
  shopName : option string;
  location : option string
}.

(** The fields of its argument that [createUserRecord] reads. *)
Record CreateUserInput := {
  cu_username : string;
  cu_email : string;
  cu_password : string;
  cu_role : option string;
  cu_shopName : option string;
  cu_location : option string;
  cu_firstName : option string;
  cu_lastName : option string
}.

(** [AuthResponse]: [{ ...userData, customToken }]. *)
Record AuthResponse := {
  auth_user : UserRecord;
  customToken : string
}.

(** The properties [auth.updateUser(uid, properties)] is called with. *)
Record UpdateRequest := {
  upd_password : option string;
  upd_photoURL : option string
}.

(** The properties [auth.createUser(properties)] is called with. *)
Record CreateRequest := {
  cr_email : string;
  cr_password : string;
  cr_displayName : string
}.

(** What [verifyPassword] reads of the sign-in response: [response.ok] and
    whether [data.error] is set. *)
Record SignInResponse := {
  response_ok : bool;
  data_error : bool
}.

(** The values [updateUserProfile] writes under the keys of [updateData]. *)
Inductive FieldValue :=
  | FString (s : string)
  | FAddress (a : Address)
  | FDate (t : Z).

(** Field values of a document read through [findById] and [findAll]. *)
Inductive JsValue :=
  | VString (s : string)
  | VNumber (x : spec_float)
  | VBool (b : bool)
  | VNull.

(** A document's data, [doc.data()]: a JavaScript object used as a map from
    field names to values. *)
Abbreviation JsObject := (gmap string JsValue).

(** What the world outside the service answers during one call: the clock,
    the random generator, the configuration, the Firebase Admin SDK
    ([this.auth], [this.db]), the sign-in endpoint and the [EmailService].
    None of these is code of this file; each is taken as given, for every
    possible answer. *)
Record Platform := {
  (** [Date.now()] and the time value of [new Date()] *)
  Date_now : Z;
  (** [Math.random()] *)
  Math_random : spec_float;
  (** [this.configService.get<string>(key)] *)
  config_get : string -> option string;
  (** [emailService.sendPasswordResetCode(email, code)], including the
      dynamic import and the construction of the [EmailService] *)
  email_sendPasswordResetCode : string -> string -> Settled unit;
  (** [this.auth.getUserByEmail(email)], fulfilled with the account's uid *)
  auth_getUserByEmail : string -> Settled string;
  (** [this.auth.createUser(properties)], fulfilled with the new uid *)
  auth_createUser : CreateRequest -> Settled string;
  (** [this.auth.updateUser(uid, properties)] *)
  auth_updateUser : string -> UpdateRequest -> Settled unit;
  (** [this.auth.createCustomToken(uid)] *)
  auth_createCustomToken : string -> Settled string;
  (** the POST to [accounts:signInWithPassword] with the given API key,
      email and password, followed by [response.json()] *)
  identitytoolkit_signInWithPassword :
    option string -> string -> string -> Settled SignInResponse;
  (** [this.db.collection('users').doc(uid).get()]: [None] when
      [!userDoc.exists], else [userDoc.data()] *)
  users_doc_get : string -> Settled (option UserRecord);
  (** [this.db.collection('users').doc(uid).set(userRecord)] *)
  users_doc_set : string -> UserRecord -> Settled unit;
  (** [this.db.collection('users').doc(uid).update(updateData)] *)
  users_doc_update : string -> gmap string FieldValue -> Settled unit;
  (** [this.db.collection(collection).doc(id).get()] *)
  doc_get : string -> string -> Settled (option JsObject);
  (** [this.db.collection(collection).get()]: the id and the data of each
      document of [snapshot.docs] *)
  collection_get : string -> Settled (list (string * JsObject))
}.

Local Open Scope js_scope.

(** ** Methods of [FirebaseService] *)

(** [async getUserByEmail(email): Promise<UserRecord | null>] *)
Definition getUserByEmail (w : Platform) (email : string)
  : M (option UserRecord) :=
  try_catch
    (do userRecord_uid <- await (auth_getUserByEmail w email);
     do userDoc <- await (users_doc_get w userRecord_uid);
     match userDoc with
     | None => ret None
     | Some data => ret (Some data)
     end)
    (fun error =>
       if bool_decide (err_code error = Some "auth/user-not-found"%string)
       then ret None
       else throw error).

(** [async sendPasswordResetCode(email: string): Promise<void>] *)
Definition sendPasswordResetCode (w : Platform) (email : string) : M unit :=
  try_catch
    (do code <- modelled (generate_code (Math_random w));
     let expires := Date_now w + 10 * 60 * 1000 in
     run resetCodes_set email (ResetEntry.mk code expires);
     run await (email_sendPasswordResetCode w email code);
     ret tt)
    (fun error => throw (new_Error "Failed to send password reset code")).

(** [async verifyPasswordResetCode(email, code): Promise<boolean>] *)
Definition verifyPasswordResetCode (w : Platform) (email code : string)
  : M bool :=
  try_catch
    (do storedData <- resetCodes_get email;
     match storedData with
     | None => ret false
     | Some storedData =>
         if Date_now w >? ResetEntry.expires storedData
         then run resetCodes_delete email; ret false
         else ret (bool_decide (ResetEntry.code storedData = code))
     end)
    (fun error => ret false).

(** [async resetPassword(email, code, newPassword): Promise<void>] *)
Definition resetPassword (w : Platform) (email code newPassword : string)
  : M unit :=
  try_catch
    (do isValidCode <- verifyPasswordResetCode w email code;
     run (if negb isValidCode
          then throw (new_Error "Invalid or expired verification code")
          else ret tt);
     do user <- getUserByEmail w email;
     match user with
     | None => throw (new_Error "User not found")
     | Some user =>
         run await (auth_updateUser w (uid user)
                      {| upd_password := Some newPassword;
                         upd_photoURL := None |});
         run resetCodes_delete email;
         ret tt
     end)
    (fun error => throw error).

(** [async getUserByUid(uid): Promise<UserRecord | null>] *)
Definition getUserByUid (w : Platform) (uid : string)
  : M (option UserRecord) :=
  try_catch
    (do userDoc <- await (users_doc_get w uid);
     match userDoc with
     | None => ret None
     | Some data => ret (Some data)
     end)
    (fun error =>
       throw (new_Error ("Error getting user: "
                         ++ or_else (err_message error) "Unknown error"))).

(** [async verifyPassword(email, password): Promise<AuthResponse>].
    The SDK fulfils [getUserByEmail] with a record, never with a falsy
    value, and [data()] of an existing document is an object, so the
    [!userRecord] and [!userData] branches have no run of their own. *)
Definition verifyPassword (w : Platform) (email password : string)
  : M AuthResponse :=
  try_catch
    (do userRecord_uid <- await (auth_getUserByEmail w email);
     let apiKey := config_get w "FIREBASE_API_KEY" in
     do response <-
       await (identitytoolkit_signInWithPassword w apiKey email password);
     run (if negb (response_ok response) || data_error response
          then throw (new_Exception UnauthorizedException
                        "Invalid credentials")
          else ret tt);
     do userDoc <- await (users_doc_get w userRecord_uid);
     match userDoc with
     | None =>
         throw (new_Exception UnauthorizedException "Invalid credentials")
     | Some userData =>
         do token <- await (auth_createCustomToken w userRecord_uid);
         ret {| auth_user := userData; customToken := token |}
     end)
    (fun error =>
       throw (new_Exception UnauthorizedException "Invalid credentials")).

(** The [userRecord] object [createUserRecord] builds, role-specific fields
    included.  Both [new Date()] are taken at the same clock reading. *)
Definition createUserRecord_userRecord (now : Z) (authUser_uid : string)
    (userData : CreateUserInput) : UserRecord :=
  if bool_decide (cu_role userData = Some "shop_owner"%string) then
    {| uid := authUser_uid;
       username := cu_username userData;
       email := cu_email userData;
       role := cu_role userData;
       createdAt := now;
       updatedAt := now;
       profile := None;
       shopName := cu_shopName userData;
       location := cu_location userData |}
  else if bool_decide (cu_role userData = Some "customer"%string) then
    {| uid := authUser_uid;
       username := cu_username userData;
       email := cu_email userData;
       role := cu_role userData;
       createdAt := now;
       updatedAt := now;
       profile := Some {| firstName := cu_firstName userData;
                          lastName := cu_lastName userData;
                          photoURL := None;
                          bio := None;
                          address := None |};
       shopName := None;
       location := None |}
  else
    {| uid := authUser_uid;
       username := cu_username userData;
       email := cu_email userData;
       role := cu_role userData;
       createdAt := now;
       updatedAt := now;
       profile := None;
       shopName := None;
       location := None |}.

(** [async createUserRecord(userData): Promise<UserRecord>] *)
Definition createUserRecord (w : Platform) (userData : CreateUserInput)
  : M UserRecord :=
  try_catch
    (do authUser_uid <-
       await (auth_createUser w
                {| cr_email := cu_email userData;
                   cr_password := cu_password userData;
                   cr_displayName := cu_username userData |});
     let userRecord :=
       createUserRecord_userRecord (Date_now w) authUser_uid userData in
     run await (users_doc_set w authUser_uid userRecord);
     ret userRecord)
    (fun error =>
       if bool_decide (err_code error
                       = Some "auth/email-already-exists"%string)
       then throw (new_Exception BadRequestException "Email already exists")
       else if bool_decide (err_code error = Some "auth/invalid-email"%string)
       then throw (new_Exception BadRequestException "Invalid email format")
       else if bool_decide (err_code error = Some "auth/weak-password"%string)
       then throw (new_Exception BadRequestException "Password is too weak")
       else throw (new_Exception BadRequestException
                     (or_else (err_message error) "Failed to create user"))).

(** The [updateData] object of [updateUserProfile]: [updatedAt], and one
    ['profile.<field>'] key per field of [profileData] that is not
    [undefined]. *)
Definition updateUserProfile_updateData (now : Z) (profileData : Profile)
  : gmap string FieldValue :=
  let updateData : gmap string FieldValue :=
    {[ "updatedAt"%string := FDate now ]} in
  let updateData :=
    match photoURL profileData with
    | Some v => <["profile.photoURL"%string := FString v]> updateData
    | None => updateData
    end in
  let updateData :=
    match bio profileData with
    | Some v => <["profile.bio"%string := FString v]> updateData
    | None => updateData
    end in
  let updateData :=
    match firstName profileData with
    | Some v => <["profile.firstName"%string := FString v]> updateData
    | None => updateData
    end in
  let updateData :=
    match lastName profileData with
    | Some v => <["profile.lastName"%string := FString v]> updateData
    | None => updateData
    end in
  match address profileData with
  | Some v => <["profile.address"%string := FAddress v]> updateData
  | None => updateData
  end.

(** [async updateUserProfile(userId, profileData): Promise<void>] *)
Definition updateUserProfile (w : Platform) (userId : string)
    (profileData : Profile) : M unit :=
  try_catch
    (do userDoc <- await (users_doc_get w userId);
     run (match userDoc with
          | None => throw (new_Error "User not found")
          | Some _ => ret tt
          end);
     let updateData := updateUserProfile_updateData (Date_now w) profileData in
     run await (users_doc_update w userId updateData);
     run (match photoURL profileData with
          | Some url =>
              if negb (String.eqb url "")
              then await (auth_updateUser w userId
                            {| upd_password := None;
                               upd_photoURL := Some url |})
              else ret tt
          | None => ret tt
          end);
     ret tt)
    (fun error => throw (new_Error "Failed to update user profile")).

(** [{ id: doc.id, ...doc.data() }]: the fields of the data, and [id] unless
    the data has a field of that name. *)
Definition with_id (id : string) (data : JsObject) : JsObject :=
  data ∪ {[ "id"%string := VString id ]}.


(** [async findAll<T>(collection): Promise<T[]>] *)
Definition findAll (w : Platform) (collection : string)
  : M (list JsObject) :=
  do snapshot_docs <- await (collection_get w collection);
  ret (map (fun doc => with_id (fst doc) (snd doc)) snapshot_docs).

(** ** Sequences of calls and sample platforms *)

(** [verifyPasswordResetCode(email, code)] called once per element of [ws],
    one after the other on the same service; the results in call order. *)
Fixpoint verify_repeatedly (ws : list Platform) (email code : string)
    (st : ResetCodes) : list (Outcome bool) * ResetCodes :=
  match ws with
  | [] => ([], st)
  | w :: ws' =>
      let '(r, st') := verifyPasswordResetCode w email code st in
      let '(rs, st'') := verify_repeatedly ws' email code st' in
      (r :: rs, st'')
  end.

(** The same with a code of its own for each call. *)
Fixpoint verify_guesses (calls : list (Platform * string)) (email : string)
    (st : ResetCodes) : list (Outcome bool) * ResetCodes :=
  match calls with
  | [] => ([], st)
  | (w, code) :: calls' =>
      let '(r, st') := verifyPasswordResetCode w email code st in
      let '(rs, st'') := verify_guesses calls' email st' in
      (r :: rs, st'')
  end.

Definition sample_user (u : string) (mail : string) : UserRecord :=
  {| uid := u; username := "sam"; email := mail;
     role := Some "customer"%string;
     createdAt := 0; updatedAt := 0; profile := None;
     shopName := None; location := None |}.

Definition weak_password : JsError :=
  {| err_class := PlainError;
     err_code := Some "auth/weak-password"%string;
     err_message := "password too short" |}.

Definition user_not_found : JsError :=
  {| err_class := PlainError;
     err_code := Some "auth/user-not-found"%string;
     err_message := "no user record" |}.

(** A platform for concrete runs: the clock reads [now], the generator
    returns [rnd], mail is delivered iff [delivers], every address has an
    account and a document iff [has_account], the identity platform accepts
    a password iff it has at least six characters, and signing in succeeds
    with the password ["NewPass1!"]. *)
Definition sample_platform (now : Z) (rnd : spec_float)
    (delivers has_account : bool) : Platform :=
  {| Date_now := now;
     Math_random := rnd;
     config_get := fun key =>
       if String.eqb key "FIREBASE_API_KEY" then Some "k3y"%string else None;
     email_sendPasswordResetCode := fun _ _ =>
       if delivers then Fulfilled tt
       else Rejected (new_Error "SMTP connection refused");
     auth_getUserByEmail := fun mail =>
       if has_account then Fulfilled ("uid:" ++ mail)%string
       else Rejected user_not_found;
     auth_createUser := fun req =>
       if (6 <=? String.length (cr_password req))%nat
       then Fulfilled ("uid:" ++ cr_email req)%string
       else Rejected weak_password;
     auth_updateUser := fun _ req =>
       match upd_password req with
       | Some pw =>
           if (6 <=? String.length pw)%nat then Fulfilled tt
           else Rejected weak_password
       | None => Fulfilled tt
       end;
     auth_createCustomToken := fun u => Fulfilled ("token:" ++ u)%string;
     identitytoolkit_signInWithPassword := fun _ _ pw =>
       Fulfilled {| response_ok := String.eqb pw "NewPass1!";
                    data_error := negb (String.eqb pw "NewPass1!") |};
     users_doc_get := fun u =>
       if has_account then Fulfilled (Some (sample_user u "a@x.com"))
       else Fulfilled None;
     users_doc_set := fun _ _ => Fulfilled tt;
     users_doc_update := fun _ _ => Fulfilled tt;
     doc_get := fun _ _ =>
       if has_account
       then Fulfilled (Some {[ "name"%string := VString "Gown" ]})
       else Fulfilled None;
     collection_get := fun _ =>
       Fulfilled [("p1"%string, {[ "name"%string := VString "Gown" ]})] |}.

(** One half, as a Number: [Math.random()] returning it yields ["550000"]. *)
Definition one_half : spec_float := S754_finite false 4503599627370496 (-53).

(** One quarter: [Math.random()] returning it yields ["325000"]. *)
Definition one_quarter : spec_float := S754_finite false 4503599627370496 (-54).

(** * Binary64 rounding *)

Section Binary64Rounding.

Lemma pow2_pos (k : Z) : 0 <= k -> 0 < 2 ^ k.
Proof. intros; apply Z.pow_pos_nonneg; lia. Qed.

Lemma pow2_add (a b : Z) : 0 <= a -> 0 <= b -> 2 ^ (a + b) = 2 ^ a * 2 ^ b.
Proof. intros; apply Z.pow_add_r; lia. Qed.

Lemma digits2_pos_size (p : positive) : digits2_pos p = Pos.size p.
Proof. induction p; simpl; congruence. Qed.

Lemma Zdigits2_lower (p : positive) : 2 ^ (Zdigits2 (Zpos p) - 1) <= Zpos p.
Proof.
  simpl. rewrite digits2_pos_size.
  pose proof (Pos.size_le p) as H.
  assert (H' : 2 ^ Zpos (Pos.size p) <= 2 * Zpos p).
  { rewrite <- Pos2Z.inj_pow. lia. }
  replace (Zpos (Pos.size p)) with (1 + (Zpos (Pos.size p) - 1)) in H' by lia.
  rewrite pow2_add in H' by lia. lia.
Qed.

Lemma Zdigits2_upper (p : positive) : Zpos p < 2 ^ Zdigits2 (Zpos p).
Proof.
  simpl. rewrite digits2_pos_size.
  pose proof (Pos.size_gt p) as H.
  rewrite <- Pos2Z.inj_pow. lia.
Qed.

Lemma Zdigits2_le_of_lt (m k : Z) : 0 <= k -> 0 <= m < 2 ^ k -> Zdigits2 m <= k.
Proof.
  intros Hk [Hm Hlt]. destruct m as [|p|p]; [simpl; lia| |lia].
  pose proof (Zdigits2_lower p) as Hl.
  destruct (Z_le_gt_dec (Zdigits2 (Zpos p)) k) as [|Hgt]; [assumption|exfalso].
  assert (2 ^ k <= 2 ^ (Zdigits2 (Zpos p) - 1)) by (apply Z.pow_le_mono_r; lia).
  lia.
Qed.

Lemma shr_1_spec (mrs : shr_record) :
  0 <= shr_m mrs ->
  shr_m (shr_1 mrs) = shr_m mrs / 2 ^ 1 /\
  (shr_r mrs = false -> shr_s mrs = false -> shr_m mrs mod 2 ^ 1 = 0 ->
   shr_r (shr_1 mrs) = false /\ shr_s (shr_1 mrs) = false).
Proof.
  destruct mrs as [m r s]; cbn [shr_m shr_r shr_s]; intros Hm.
  change (2 ^ 1) with 2.
  destruct m as [|[p|p|]|p]; cbn [shr_1 shr_m shr_r shr_s]; try lia.
  - split; [reflexivity|]. intros -> ->. auto.
  - split.
    + apply Z.div_unique with (r := 1); lia.
    + intros _ _ H. exfalso.
      rewrite <- (Z.mod_unique (Zpos p~1) 2 (Zpos p) 1) in H; lia.
  - split.
    + apply Z.div_unique with (r := 0); lia.
    + intros -> ->. auto.
  - split; [reflexivity|]. intros _ _ H. discriminate H.
Qed.

Lemma shift_compose (m0 m1 m2 a b : Z) (ex0 ex1 ex2 : Prop) :
  0 <= a -> 0 <= b ->
  m1 = m0 / 2 ^ a /\ (ex0 -> m0 mod 2 ^ a = 0 -> ex1) ->
  m2 = m1 / 2 ^ b /\ (ex1 -> m1 mod 2 ^ b = 0 -> ex2) ->
  m2 = m0 / 2 ^ (a + b) /\ (ex0 -> m0 mod 2 ^ (a + b) = 0 -> ex2).
Proof.
  intros Ha Hb [-> H1] [-> H2].
  pose proof (pow2_pos a Ha) as Pa. pose proof (pow2_pos b Hb) as Pb.
  rewrite pow2_add by assumption. split.
  - rewrite Z.div_div by lia. reflexivity.
  - intros E0 Hz. rewrite Z.rem_mul_r in Hz by lia.
    pose proof (Z.mod_pos_bound m0 (2 ^ a) Pa).
    pose proof (Z.mod_pos_bound (m0 / 2 ^ a) (2 ^ b) Pb).
    apply H2; [apply H1; [assumption|nia]|nia].
Qed.

Lemma iter_shr_1_spec (p : positive) (mrs : shr_record) :
  0 <= shr_m mrs ->
  shr_m (SpecFloat.iter_pos shr_1 p mrs) = shr_m mrs / 2 ^ Zpos p /\
  (shr_r mrs = false /\ shr_s mrs = false -> shr_m mrs mod 2 ^ Zpos p = 0 ->
   shr_r (SpecFloat.iter_pos shr_1 p mrs) = false /\ shr_s (SpecFloat.iter_pos shr_1 p mrs) = false).
Proof.
  revert mrs. induction p as [p IH|p IH|]; intros mrs Hm; cbn [SpecFloat.iter_pos].
  - pose proof (shr_1_spec mrs Hm) as [E1 X1].
    assert (H1 : 0 <= shr_m (shr_1 mrs)) by (rewrite E1; apply Z.div_pos; lia).
    pose proof (IH _ H1) as S2.
    assert (H2 : 0 <= shr_m (SpecFloat.iter_pos shr_1 p (shr_1 mrs))).
    { destruct S2 as [-> _]. apply Z.div_pos; [lia|apply pow2_pos; lia]. }
    pose proof (IH _ H2) as S3.
    replace (Zpos p~1) with (1 + (Zpos p + Zpos p)) by lia.
    eapply shift_compose; [lia|lia| |].
    + split; [exact E1|]. intros [? ?] ?. apply X1; assumption.
    + eapply shift_compose; [lia|lia|exact S2|exact S3].
  - pose proof (IH _ Hm) as S1.
    assert (H1 : 0 <= shr_m (SpecFloat.iter_pos shr_1 p mrs)).
    { destruct S1 as [-> _]. apply Z.div_pos; [lia|apply pow2_pos; lia]. }
    pose proof (IH _ H1) as S2.
    replace (Zpos p~0) with (Zpos p + Zpos p) by lia.
    eapply shift_compose; [lia|lia|exact S1|exact S2].
  - pose proof (shr_1_spec mrs Hm) as [E1 X1].
    split; [exact E1|]. intros [? ?] ?. apply X1; assumption.
Qed.

(** Rounding to nearest moves the truncated mantissa up by at most one, and
    not at all when nothing was shifted out. *)
Lemma round_nearest_even_spec (mrs : shr_record) :
  shr_m mrs <= round_nearest_even (shr_m mrs) (loc_of_shr_record mrs) <= shr_m mrs + 1 /\
  (shr_r mrs = false /\ shr_s mrs = false ->
   round_nearest_even (shr_m mrs) (loc_of_shr_record mrs) = shr_m mrs).
Proof.
  destruct mrs as [m [|] [|]]; cbn; try destruct (Z.even m); split;
    try lia; try reflexivity; intros [? ?]; discriminate.
Qed.

Lemma fexp_binary64 (e : Z) :
  fexp Number.prec Number.emax e = Z.max (e - 53) (-1074).
Proof. reflexivity. Qed.

(** [shr_fexp] on an exact mantissa: the exponent moves up to the one the
    format prescribes, the mantissa is truncated accordingly, and the record
    stays exact when no set bit is shifted out. *)
Lemma shr_fexp_exact_spec (m e : Z) :
  0 <= m ->
  let r := shr_fexp Number.prec Number.emax m e loc_Exact in
  snd r = Z.max e (fexp Number.prec Number.emax (Zdigits2 m + e)) /\
  shr_m (fst r) = m / 2 ^ (snd r - e) /\
  (m mod 2 ^ (snd r - e) = 0 -> shr_r (fst r) = false /\ shr_s (fst r) = false).
Proof.
  intros Hm. unfold shr_fexp, shr. cbn [shr_record_of_loc].
  destruct (fexp Number.prec Number.emax (Zdigits2 m + e) - e) as [|p|p] eqn:En;
    cbn [fst snd shr_m shr_r shr_s].
  - replace (e - e) with 0 by lia. rewrite Z.div_1_r. split; [lia|auto].
  - pose proof (iter_shr_1_spec p (Build_shr_record m false false) Hm) as [E1 X1].
    cbn [shr_m shr_r shr_s] in E1, X1.
    replace (e + Zpos p - e) with (Zpos p) by lia.
    split; [lia|]. split; [exact E1|]. intros Hz. apply X1; auto.
  - replace (e - e) with 0 by lia. rewrite Z.div_1_r. split; [lia|auto].
Qed.

(** Truncating a mantissa that lies between two multiples of the coarser
    grid keeps it between them; when a remainder is dropped there is room
    for one more unit below the upper multiple. *)
Lemma trunc_between (m e e' g lo hi : Z) :
  0 <= m -> e <= e' -> e' <= g ->
  lo * 2 ^ (g - e) <= m <= hi * 2 ^ (g - e) ->
  lo * 2 ^ (g - e') <= m / 2 ^ (e' - e) <= hi * 2 ^ (g - e') /\
  (m mod 2 ^ (e' - e) <> 0 -> m / 2 ^ (e' - e) + 1 <= hi * 2 ^ (g - e')).
Proof.
  intros Hm He He' [Hlo Hhi].
  replace (g - e) with ((g - e') + (e' - e)) in Hlo, Hhi by lia.
  rewrite pow2_add in Hlo, Hhi by lia.
  pose proof (pow2_pos (g - e') ltac:(lia)) as Pk.
  pose proof (pow2_pos (e' - e) ltac:(lia)) as Pn.
  set (N := 2 ^ (e' - e)) in *. set (A := lo * 2 ^ (g - e')). set (B := hi * 2 ^ (g - e')).
  replace (lo * (2 ^ (g - e') * N)) with (A * N) in Hlo by (unfold A; ring).
  replace (hi * (2 ^ (g - e') * N)) with (B * N) in Hhi by (unfold B; ring).
  pose proof (Z.div_mod m N ltac:(lia)) as Hdm.
  pose proof (Z.mod_pos_bound m N Pn) as Hr.
  set (q := m / N) in *. set (r := m mod N) in *.
  repeat split.
  - nia.
  - nia.
  - intros Hnz. nia.
Qed.

Lemma below_pow2 (m hi k : Z) :
  0 <= k -> hi < 2 ^ 53 -> m <= hi * 2 ^ k -> m < 2 ^ (53 + k).
Proof.
  intros Hk Hhi Hm. rewrite pow2_add by lia.
  pose proof (pow2_pos k Hk). nia.
Qed.

(** The rounding step of every binary64 operation, on an exact positive
    input [M * 2^E]: if the input lies between two numbers [lo * 2^g] and
    [hi * 2^g] of a grid no finer than the input's own, so does the
    result, and it is a zero or a finite number of exponent at most [g]. *)
Lemma binary_round_aux_between (M E g lo hi : Z) :
  0 < M -> E <= g -> -1074 <= g <= 971 -> 0 <= lo -> hi < 2 ^ 53 ->
  lo * 2 ^ (g - E) <= M <= hi * 2 ^ (g - E) ->
  exists m e,
    E <= e <= g /\ lo * 2 ^ (g - e) <= m <= hi * 2 ^ (g - e) /\
    binary_round_aux Number.prec Number.emax false M E loc_Exact =
      match m with
      | Zpos p => S754_finite false p e
      | _ => S754_zero false
      end.
Proof.
  intros HM HE Hg Hlo Hhi HB.
  unfold binary_round_aux.
  pose proof (shr_fexp_exact_spec M E ltac:(lia)) as S1.
  destruct (shr_fexp Number.prec Number.emax M E loc_Exact) as [mrs1 e1].
  cbn [fst snd] in S1. destruct S1 as (Ee1 & Em1 & Ex1).
  assert (D1 : Zdigits2 M <= 53 + (g - E)).
  { apply Zdigits2_le_of_lt; [lia|]. split; [lia|].
    apply below_pow2 with hi; lia. }
  rewrite fexp_binary64 in Ee1.
  assert (He1 : E <= e1 <= g) by lia.
  pose proof (trunc_between M E e1 g lo hi ltac:(lia) ltac:(lia) ltac:(lia) HB)
    as [[T1 T2] T3].
  pose proof (round_nearest_even_spec mrs1) as [[R1 R2] R3].
  set (mr := round_nearest_even (shr_m mrs1) (loc_of_shr_record mrs1)) in *.
  assert (Bmr : lo * 2 ^ (g - e1) <= mr <= hi * 2 ^ (g - e1)).
  { rewrite Em1 in R1, R2, R3. split; [lia|].
    destruct (Z.eq_dec (M mod 2 ^ (e1 - E)) 0) as [Hz|Hnz].
    - rewrite (R3 (Ex1 Hz)). lia.
    - specialize (T3 Hnz). lia. }
  assert (Hmr : 0 <= mr).
  { pose proof (pow2_pos (g - e1) ltac:(lia)). nia. }
  pose proof (shr_fexp_exact_spec mr e1 Hmr) as S2.
  destruct (shr_fexp Number.prec Number.emax mr e1 loc_Exact) as [mrs2 e2].
  cbn [fst snd] in S2. destruct S2 as (Ee2 & Em2 & _).
  assert (D2 : Zdigits2 mr <= 53 + (g - e1)).
  { apply Zdigits2_le_of_lt; [lia|]. split; [lia|].
    apply below_pow2 with hi; lia. }
  rewrite fexp_binary64 in Ee2.
  assert (He2 : e1 <= e2 <= g) by lia.
  pose proof (trunc_between mr e1 e2 g lo hi Hmr ltac:(lia) ltac:(lia) Bmr)
    as [[U1 U2] _].
  rewrite <- Em2 in U1, U2.
  exists (shr_m mrs2), e2. split; [lia|]. split; [lia|].
  destruct (shr_m mrs2) as [|p|p] eqn:Em.
  - reflexivity.
  - replace (e2 <=? Number.emax - Number.prec) with true; [reflexivity|].
    symmetry. apply Z.leb_le. unfold Number.emax, Number.prec. lia.
  - exfalso. assert (0 <= mr / 2 ^ (e2 - e1)).
    { apply Z.div_pos; [lia|apply pow2_pos; lia]. }
    lia.
Qed.

Lemma iter_xO_spec (d m : positive) :
  Zpos (Pos.iter xO m d) = Zpos m * 2 ^ Zpos d.
Proof.
  induction d as [|d IH] using Pos.peano_ind.
  - cbn [Pos.iter]. lia.
  - rewrite Pos.iter_succ, Pos2Z.inj_xO, IH, Pos2Z.inj_succ.
    unfold Z.succ. rewrite pow2_add by lia. lia.
Qed.

Lemma shl_align_spec (m : positive) (e e' : Z) :
  snd (shl_align m e e') = Z.min e e' /\
  Zpos (fst (shl_align m e e')) = Zpos m * 2 ^ (e - Z.min e e').
Proof.
  unfold shl_align. destruct (e' - e) as [|p|p] eqn:Ed; cbn [fst snd].
  - replace (Z.min e e') with e by lia. replace (e - e) with 0 by lia. lia.
  - replace (Z.min e e') with e by lia. replace (e - e) with 0 by lia. lia.
  - replace (Z.min e e') with e' by lia. replace (e - e') with (Zpos p) by lia.
    split; [reflexivity|apply iter_xO_spec].
Qed.

(** [binary_round] aligns the mantissa and then rounds; the enclosure of
    [binary_round_aux_between] carries over. *)
Lemma binary_round_between (M : positive) (E g lo hi : Z) :
  E <= g -> -1074 <= g <= 971 -> 0 <= lo -> hi < 2 ^ 53 ->
  lo * 2 ^ (g - E) <= Zpos M <= hi * 2 ^ (g - E) ->
  exists m e,
    e <= g /\ lo * 2 ^ (g - e) <= m <= hi * 2 ^ (g - e) /\
    binary_round Number.prec Number.emax false M E =
      match m with
      | Zpos p => S754_finite false p e
      | _ => S754_zero false
      end.
Proof.
  intros HE Hg Hlo Hhi HB. unfold binary_round.
  pose proof (shl_align_spec M E
                (fexp Number.prec Number.emax (Zpos (digits2_pos M) + E)))
    as [Es Em].
  destruct (shl_align M E _) as [mz ez]. cbn [fst snd] in Es, Em.
  set (ez' := Z.min E _) in *. assert (Hez : ez' <= E) by (unfold ez'; lia).
  subst ez.
  destruct (binary_round_aux_between (Zpos mz) ez' g lo hi) as (m & e & He & Hm & Hr);
    try lia.
  - rewrite Em. replace (g - ez') with ((g - E) + (E - ez')) by lia.
    rewrite pow2_add by lia.
    pose proof (pow2_pos (E - ez') ltac:(lia)).
    pose proof (pow2_pos (g - E) ltac:(lia)). nia.
  - exists m, e. split; [lia|]. split; [assumption|exact Hr].
Qed.

Lemma of_Z_900000 :
  Number.of_Z 900000 = S754_finite false 7730941132800000 (-33).
Proof. reflexivity. Qed.

Lemma of_Z_100000 :
  Number.of_Z 100000 = S754_finite false 6871947673600000 (-36).
Proof. reflexivity. Qed.

(** A Number of [0, 1) other than the largest one has exponent [-53] and a
    mantissa of at most [2^53 - 2], or a smaller exponent. *)
Lemma unit_interval_finite (m : positive) (e : Z) :
  Number.unit_interval (S754_finite false m e) = true ->
  S754_finite false m e <> S754_finite false 9007199254740991 (-53) ->
  (e = -53 /\ Zpos m <= 9007199254740990) \/
  (e <= -54 /\ Zpos m < 9007199254740992).
Proof.
  cbn [Number.unit_interval]. unfold bounded, canonical_mantissa.
  rewrite !andb_true_iff, Z.eqb_eq, Z.leb_le, !Z.ltb_lt, fexp_binary64.
  intros [[[Hc He] Hneg] Hlt] Hne.
  pose proof (Zdigits2_lower m) as Hl. pose proof (Zdigits2_upper m) as Hu.
  cbn [Zdigits2] in Hl, Hu. set (d := Zpos (digits2_pos m)) in *.
  assert (Hd : d <= 53) by lia.
  assert (Hm53 : Zpos m < 2 ^ 53).
  { eapply Z.lt_le_trans; [exact Hu|]. apply Z.pow_le_mono_r; lia. }
  change (2 ^ 53) with 9007199254740992 in Hm53.
  destruct (Z_le_gt_dec e (-54)) as [|Hge]; [right; lia|left].
  assert (Hd53 : d = 53) by lia.
  assert (H52 : 2 ^ 52 <= Zpos m) by (rewrite Hd53 in Hl; exact Hl).
  assert (He53 : e = -53).
  { destruct (Z.eq_dec e (-53)) as [|Hn]; [assumption|exfalso].
    assert (2 ^ (- e) <= 2 ^ 52) by (apply Z.pow_le_mono_r; lia). lia. }
  split; [assumption|].
  destruct (Z.eq_dec (Zpos m) 9007199254740991) as [Heq|]; [|lia].
  exfalso. apply Hne. congruence.
Qed.

(** [Math.random() * 900000] stays at or below the Number just under
    900000, for every value of [Math.random()] but the largest. *)
Lemma mul_900000_between (u : spec_float) :
  Number.unit_interval u = true ->
  u <> S754_finite false 9007199254740991 (-53) ->
  exists m e,
    e <= -33 /\ 0 <= m <= 7730941132799999 * 2 ^ (-33 - e) /\
    Number.mul u (Number.of_Z 900000) =
      match m with
      | Zpos p => S754_finite false p e
      | _ => S754_zero false
      end.
Proof.
  intros Hu Hne. rewrite of_Z_900000.
  destruct u as [[|]|s| |[|] m e]; try discriminate Hu.
  - exists 0, (-33). split; [lia|]. split; [cbn; lia|reflexivity].
  - pose proof (unit_interval_finite m e Hu Hne) as Hcase.
    unfold Number.mul, SFmul. cbn [xorb].
    destruct (binary_round_aux_between (Zpos (m * 7730941132800000)) (e + -33)
                (-33) 0 7730941132799999) as (m' & e' & He & Hm & Hr);
      try lia.
    + replace (-33 - (e + -33)) with (- e) by lia. split; [lia|].
      rewrite Pos2Z.inj_mul.
      destruct Hcase as [[-> Hm]|[He Hm]].
      * change (2 ^ (- -53)) with 9007199254740992. lia.
      * replace (- e) with (53 + (- e - 53)) by lia.
        rewrite pow2_add by lia. change (2 ^ 53) with 9007199254740992.
        assert (2 ^ 1 <= 2 ^ (- e - 53)) by (apply Z.pow_le_mono_r; lia).
        change (2 ^ 1) with 2 in *. nia.
    + exists m', e'. split; [lia|]. split; [lia|exact Hr].
Qed.

(** [100000 + p] for a product [p] as bounded by [mul_900000_between]:
    the sum is a finite Number between 100000 and the Number just under
    1000000. *)
Lemma add_100000_between (m e : Z) :
  e <= -33 -> 0 <= m <= 7730941132799999 * 2 ^ (-33 - e) ->
  exists m2 e2,
    e2 <= -33 /\
    858993459200000 * 2 ^ (-33 - e2) <= Zpos m2
      <= 8589934591999999 * 2 ^ (-33 - e2) /\
    Number.add (Number.of_Z 100000)
      match m with
      | Zpos p => S754_finite false p e
      | _ => S754_zero false
      end = S754_finite false m2 e2.
Proof.
  intros He Hm. rewrite of_Z_100000.
  destruct m as [|p|p]; [| |lia].
  - exists 6871947673600000%positive, (-36). split; [lia|].
    split; [|reflexivity]. change (2 ^ (-33 - -36)) with 8. lia.
  - unfold Number.add, SFadd. cbn [cond_Zopp].
    set (ez := Z.min (-36) e).
    pose proof (shl_align_spec 6871947673600000 (-36) ez) as [_ Ea].
    pose proof (shl_align_spec p e ez) as [_ Eb].
    replace (Z.min (-36) ez) with ez in Ea by (unfold ez; lia).
    replace (Z.min e ez) with ez in Eb by (unfold ez; lia).
    set (a := fst (shl_align 6871947673600000 (-36) ez)) in *.
    set (b := fst (shl_align p e ez)) in *.
    change (Zpos a + Zpos b) with (Zpos (a + b)). cbn [binary_normalize].
    assert (Hez : ez <= -36) by (unfold ez; lia).
    assert (Hee : ez <= e) by (unfold ez; lia).
    pose proof (pow2_pos (-36 - ez) ltac:(lia)) as P1.
    pose proof (pow2_pos (e - ez) ltac:(lia)) as P2.
    pose proof (pow2_pos (-33 - e) ltac:(lia)) as P3.
    assert (X1 : 2 ^ (-33 - ez) = 8 * 2 ^ (-36 - ez)).
    { replace (-33 - ez) with (3 + (-36 - ez)) by lia.
      rewrite pow2_add by lia. reflexivity. }
    assert (X2 : 2 ^ (-33 - ez) = 2 ^ (-33 - e) * 2 ^ (e - ez)).
    { replace (-33 - ez) with ((-33 - e) + (e - ez)) by lia.
      rewrite pow2_add by lia. reflexivity. }
    destruct (binary_round_between (a + b) ez (-33)
                858993459200000 8589934591999999)
      as (m' & e' & He' & Hm' & Hr); try lia.
    + rewrite Pos2Z.inj_add, Ea, Eb. split; [nia|].
      transitivity (6871947673600000 * 2 ^ (-36 - ez)
                    + 7730941132799999 * 2 ^ (-33 - e) * 2 ^ (e - ez)); [nia|].
      rewrite <- Z.mul_assoc, <- X2, X1. lia.
    + destruct m' as [|p'|p'].
      * exfalso. pose proof (pow2_pos (-33 - e') ltac:(lia)). nia.
      * exists p', e'. split; [lia|]. split; [exact Hm'|exact Hr].
      * exfalso. pose proof (pow2_pos (-33 - e') ltac:(lia)). nia.
Qed.

(** An integer literal below [2^53] denotes a Number of exactly that value,
    and prints as its decimal digits. *)
Lemma toString_of_Z (z : Z) :
  0 < z < 2 ^ 53 ->
  Number.toString (Number.of_Z z) = Some (Number.decimal z).
Proof.
  intros Hz. unfold Number.of_Z. destruct z as [|p|p]; try lia.
  cbn [binary_normalize].
  destruct (binary_round_between p 0 0 (Zpos p) (Zpos p))
    as (m & e & He & Hm & Hr); try lia.
  rewrite Hr. pose proof (pow2_pos (0 - e) ltac:(lia)) as Pe.
  destruct m as [|q|q]; try nia.
  assert (Eq : Zpos q = Zpos p * 2 ^ (0 - e)) by lia.
  replace (0 - e) with (- e) in * by lia.
  assert (Ez : Number.to_integer (S754_finite false q e) = Some (Zpos p)).
  { cbn [Number.to_integer cond_Zopp].
    destruct (0 <=? e) eqn:E0.
    - apply Z.leb_le in E0. replace e with 0 in * by lia. f_equal.
      change (2 ^ (- 0)) with 1 in Eq. change (2 ^ 0) with 1. lia.
    - rewrite Eq, Z.mod_mul, Z.div_mul by lia. reflexivity. }
  unfold Number.toString. rewrite Ez.
  replace (Z.abs (Zpos p) <? 10 ^ 21) with true; [reflexivity|].
  symmetry. apply Z.ltb_lt. change (2 ^ 53) with 9007199254740992 in Hz.
  change (10 ^ 21) with 1000000000000000000000. lia.
Qed.

(** [Math.floor] of a sum as bounded by [add_100000_between] is an integer
    from 100000 to 999999. *)
Lemma floor_between (m2 : positive) (e2 : Z) :
  e2 <= -33 ->
  858993459200000 * 2 ^ (-33 - e2) <= Zpos m2
    <= 8589934591999999 * 2 ^ (-33 - e2) ->
  exists n, 100000 <= n <= 999999 /\
    Number.floor (S754_finite false m2 e2) = Number.of_Z n.
Proof.
  intros He [Hlo Hhi]. exists (Zpos m2 / 2 ^ (- e2)).
  pose proof (pow2_pos (-33 - e2) ltac:(lia)) as P1.
  assert (X : 2 ^ (- e2) = 8589934592 * 2 ^ (-33 - e2)).
  { replace (- e2) with (33 + (-33 - e2)) by lia.
    rewrite pow2_add by lia. reflexivity. }
  split.
  - split.
    + apply Z.div_le_lower_bound; lia.
    + assert (Zpos m2 / 2 ^ (- e2) < 1000000); [|lia].
      apply Z.div_lt_upper_bound; lia.
  - cbn [Number.floor cond_Zopp].
    replace (0 <=? e2) with false by (symmetry; apply Z.leb_gt; lia).
    reflexivity.
Qed.

Lemma generate_code_largest :
  generate_code (S754_finite false 9007199254740991 (-53)) =
  Some (Number.decimal 999999).
Proof. vm_compute. reflexivity. Qed.

(** For every value [Math.random()] can return, the generated code is the
    decimal form of an integer from 100000 to 999999. *)
Lemma generate_code_between (u : spec_float) :
  Number.unit_interval u = true ->
  exists n, 100000 <= n <= 999999 /\
    generate_code u = Some (Number.decimal n).
Proof.
  intros Hu.
  assert (Hdec : u = S754_finite false 9007199254740991 (-53) \/
                 u <> S754_finite false 9007199254740991 (-53)).
  { destruct u as [s|s| |s m e]; try (right; discriminate).
    destruct s; [right; discriminate|].
    destruct (Pos.eq_dec m 9007199254740991%positive) as [->|Hm];
      [|right; congruence].
    destruct (Z.eq_dec e (-53)) as [->|He]; [left; reflexivity|].
    right; congruence. }
  destruct Hdec as [->|Hne].
  - exists 999999. split; [lia|exact generate_code_largest].
  - destruct (mul_900000_between u Hu Hne) as (m & e & He & Hm & Emul).
    destruct (add_100000_between m e He Hm) as (m2 & e2 & He2 & Hm2 & Eadd).
    destruct (floor_between m2 e2 He2 Hm2) as (n & Hn & Efl).
    exists n. split; [exact Hn|].
    unfold generate_code. rewrite Emul, Eadd, Efl.
    apply toString_of_Z. change (2 ^ 53) with 9007199254740992. lia.
Qed.

End Binary64Rounding.

(** * Decimal digits *)

Section DecimalDigits.
Import Decimal.

Lemma of_lu_rev_upper (u : uint) :
  (Unsigned.of_lu (rev u) < 10 ^ Unsigned.usize u)%N.
Proof.
  induction u; cbn [Unsigned.usize];
    [cbn; lia | unfold rev; cbn [revapp];
                rewrite Unsigned.of_lu_revapp, N.pow_succ_r';
                cbn [Unsigned.of_lu]; lia ..].
Qed.

Lemma of_lu_rev_lower (u : uint) :
  nzhead u = u -> u <> Nil ->
  (10 ^ Unsigned.usize u <= 10 * Unsigned.of_lu (rev u))%N.
Proof.
  intros Hnz Hne.
  destruct u; try congruence; cbn [Unsigned.usize];
    unfold rev; cbn [revapp];
    rewrite Unsigned.of_lu_revapp, N.pow_succ_r';
    cbn [Unsigned.of_lu]; try lia.
  exfalso. cbn [nzhead] in Hnz.
  pose proof (nb_digits_nzhead u) as H. rewrite Hnz in H. cbn in H. lia.
Qed.

Lemma to_uint_nzhead (p : positive) : nzhead (Pos.to_uint p) = Pos.to_uint p.
Proof.
  pose proof (Unsigned.to_of (Pos.to_uint p)) as H.
  rewrite Unsigned.of_to in H. change (N.to_uint (Npos p)) with (Pos.to_uint p) in H.
  pose proof (Unsigned.to_uint_nonzero p) as Hz.
  unfold unorm in H. destruct (nzhead (Pos.to_uint p)) eqn:E; try congruence.
Qed.

Lemma string_of_uint_length (u : uint) :
  String.length (NilEmpty.string_of_uint u) = N.to_nat (Unsigned.usize u).
Proof.
  induction u; cbn [NilEmpty.string_of_uint Unsigned.usize String.length];
    [reflexivity | rewrite N2Nat.inj_succ; congruence ..].
Qed.

Lemma string_of_uint_digits (u : uint) :
  forallb is_digit (list_ascii_of_string (NilEmpty.string_of_uint u)) = true.
Proof.
  induction u; cbn [NilEmpty.string_of_uint list_ascii_of_string forallb];
    [reflexivity | rewrite IHu; reflexivity ..].
Qed.

Lemma string_of_uint_head (u : uint) :
  nzhead u = u -> String.prefix "0" (NilEmpty.string_of_uint u) = false.
Proof.
  intros Hnz. destruct u; try reflexivity.
  exfalso. cbn [nzhead] in Hnz.
  pose proof (nb_digits_nzhead u) as H. rewrite Hnz in H. cbn in H. lia.
Qed.

Lemma decimal_six_digits (n : Z) :
  100000 <= n <= 999999 -> is_six_digit_code (Number.decimal n) = true.
Proof.
  intros Hn. destruct n as [|p|p]; try lia.
  unfold Number.decimal. cbn [Z.to_int NilZero.string_of_int].
  pose proof (to_uint_nzhead p) as Hnz.
  pose proof (Unsigned.to_uint_nonnil p) as Hne.
  pose proof (of_lu_rev_upper (Pos.to_uint p)) as Hup.
  pose proof (of_lu_rev_lower (Pos.to_uint p) Hnz Hne) as Hlo.
  rewrite <- Unsigned.of_uint_alt, Unsigned.of_to in Hup, Hlo.
  set (u := Pos.to_uint p) in *.
  assert (Hk : Unsigned.usize u = 6%N).
  { assert (5 < Unsigned.usize u)%N.
    { apply (N.pow_lt_mono_r_iff 10); [lia|].
      change (10 ^ 5)%N with 100000%N. lia. }
    assert (Unsigned.usize u < 7)%N.
    { apply (N.pow_lt_mono_r_iff 10); [lia|].
      change (10 ^ 7)%N with 10000000%N. lia. }
    lia. }
  assert (Es : NilZero.string_of_uint u = NilEmpty.string_of_uint u).
  { destruct u; [congruence|reflexivity ..]. }
  rewrite Es. unfold is_six_digit_code.
  rewrite string_of_uint_length, Hk, string_of_uint_digits,
    (string_of_uint_head u Hnz).
  reflexivity.
Qed.

(** Parsing the digits back gives the integer. *)
Lemma decimal_value (n : Z) :
  parse_decimal (Number.decimal n) = Some n.
Proof.
  unfold parse_decimal, Number.decimal. rewrite NilZero.isi.
  - cbn. f_equal. apply DecimalZ.of_to.
  - destruct n; cbn; try discriminate. intros [= H].
    exact (Unsigned.to_uint_nonnil _ H).
  - destruct n; cbn; try discriminate. intros [= H].
    exact (Unsigned.to_uint_nonnil _ H).
Qed.
End DecimalDigits.

(** * The three operations on [resetCodes] *)

Section Operations.

Implicit Types (w : Platform) (st : ResetCodes) (e : ResetEntry.t).

Lemma verify_absent w (email code : string) st :
  st !! email = None ->
  verifyPasswordResetCode w email code st = (Return false, st).
Proof.
  intros H. unfold verifyPasswordResetCode, try_catch, bind, resetCodes_get.
  rewrite H. reflexivity.
Qed.

Lemma verify_expired w (email code : string) st e :
  st !! email = Some e -> ResetEntry.expires e < Date_now w ->
  verifyPasswordResetCode w email code st = (Return false, delete email st).
Proof.
  intros H Ht. unfold verifyPasswordResetCode, try_catch, bind, resetCodes_get.
  rewrite H.
  replace (Date_now w >? ResetEntry.expires e) with true
    by (symmetry; apply Z.gtb_lt; lia).
  reflexivity.
Qed.

Lemma verify_live w (email code : string) st e :
  st !! email = Some e -> Date_now w <= ResetEntry.expires e ->
  verifyPasswordResetCode w email code st =
    (Return (bool_decide (ResetEntry.code e = code)), st).
Proof.
  intros H Ht. unfold verifyPasswordResetCode, try_catch, bind, resetCodes_get.
  rewrite H.
  replace (Date_now w >? ResetEntry.expires e) with false; [reflexivity|].
  symmetry. rewrite Z.gtb_ltb. apply Z.ltb_ge. lia.
Qed.

(** [verifyPasswordResetCode] always returns a boolean, and leaves the map
    as it is or without the entry it looked up. *)
Lemma verify_total w (email code : string) st :
  exists b, verifyPasswordResetCode w email code st = (Return b, st) \/
            verifyPasswordResetCode w email code st = (Return b, delete email st).
Proof.
  destruct (st !! email) as [e|] eqn:H.
  - destruct (Z_lt_le_dec (ResetEntry.expires e) (Date_now w)).
    + exists false. right. eapply verify_expired; eassumption.
    + eexists. left. eapply verify_live; eassumption.
  - exists false. left. apply verify_absent; assumption.
Qed.

Lemma send_spec w (email c : string) st :
  generate_code (Math_random w) = Some c ->
  sendPasswordResetCode w email st =
    (match email_sendPasswordResetCode w email c with
     | Fulfilled _ => Return tt
     | Rejected _ => Throw (new_Error "Failed to send password reset code")
     end,
     <[email := ResetEntry.mk c (Date_now w + 600000)]> st).
Proof.
  intros H. unfold sendPasswordResetCode, try_catch, bind, modelled.
  rewrite H. unfold resetCodes_set, await.
  change (10 * 60 * 1000) with 600000.
  destruct (email_sendPasswordResetCode w email c) as [[]|err]; reflexivity.
Qed.

Lemma getUserByEmail_state w (email : string) st :
  snd (getUserByEmail w email st) = st.
Proof.
  unfold getUserByEmail, try_catch, bind, await.
  destruct (auth_getUserByEmail w email) as [u|err].
  - destruct (users_doc_get w u) as [[d|]|err]; try reflexivity.
    cbn. destruct (bool_decide _); reflexivity.
  - cbn. destruct (bool_decide _); reflexivity.
Qed.

Lemma getUserByEmail_found w (email u : string) (user : UserRecord) st :
  auth_getUserByEmail w email = Fulfilled u ->
  users_doc_get w u = Fulfilled (Some user) ->
  getUserByEmail w email st = (Return (Some user), st).
Proof.
  intros H1 H2. unfold getUserByEmail, try_catch, bind, await.
  rewrite H1, H2. reflexivity.
Qed.

Lemma reset_invalid w (email code pw : string) st st' :
  verifyPasswordResetCode w email code st = (Return false, st') ->
  resetPassword w email code pw st =
    (Throw (new_Error "Invalid or expired verification code"), st').
Proof.
  intros H. unfold resetPassword, try_catch, bind. rewrite H. reflexivity.
Qed.

(** After a valid code, [resetPassword] completes as the lookup and the
    update of the account decide. *)
Lemma reset_valid w (email code pw : string) st :
  verifyPasswordResetCode w email code st = (Return true, st) ->
  resetPassword w email code pw st =
    match getUserByEmail w email st with
    | (Return (Some user), _) =>
        match auth_updateUser w (uid user)
                {| upd_password := Some pw; upd_photoURL := None |} with
        | Fulfilled _ => (Return tt, delete email st)
        | Rejected err => (Throw err, st)
        end
    | (Return None, _) => (Throw (new_Error "User not found"), st)
    | (Throw err, _) => (Throw err, st)
    | (Unmodelled, _) => (Unmodelled, st)
    end.
Proof.
  intros H. unfold resetPassword, try_catch at 1, bind. rewrite H.
  cbn [negb]. unfold ret at 1.
  pose proof (getUserByEmail_state w email st) as Hs.
  destruct (getUserByEmail w email st) as [[[user|]|err|] st1];
    cbn [snd] in Hs; subst st1; try reflexivity.
  unfold await, resetCodes_delete, ret.
  destruct (auth_updateUser w (uid user) _) as [[]|err]; reflexivity.
Qed.

(** With a live entry, its code, an account and an accepted password,
    [resetPassword] returns normally and deletes the entry. *)
Lemma reset_succeeds w (r pw u : string) (user : UserRecord) st e :
  st !! r = Some e ->
  Date_now w <= ResetEntry.expires e ->
  auth_getUserByEmail w r = Fulfilled u ->
  users_doc_get w u = Fulfilled (Some user) ->
  auth_updateUser w (uid user)
    {| upd_password := Some pw; upd_photoURL := None |} = Fulfilled tt ->
  resetPassword w r (ResetEntry.code e) pw st = (Return tt, delete r st).
Proof.
  intros Hl Ht Ha Hd Hu.
  assert (Hv : verifyPasswordResetCode w r (ResetEntry.code e) st
               = (Return true, st)).
  { rewrite (verify_live w r _ st e Hl Ht).
    rewrite bool_decide_eq_true_2 by reflexivity. reflexivity. }
  rewrite (reset_valid w r _ pw st Hv).
  rewrite (getUserByEmail_found w r u user st Ha Hd), Hu. reflexivity.
Qed.

(** Whatever a call does, the map afterwards is the one before, possibly
    with the entry of the recipient named in the call set or deleted. *)
Lemma send_state w (email : string) st :
  snd (sendPasswordResetCode w email st) = st \/
  exists e, snd (sendPasswordResetCode w email st) = <[email := e]> st.
Proof.
  destruct (generate_code (Math_random w)) as [c|] eqn:H.
  - right. rewrite (send_spec w email c st H). eexists. reflexivity.
  - left. unfold sendPasswordResetCode, try_catch, bind, modelled.
    rewrite H. reflexivity.
Qed.

Lemma verify_state w (email code : string) st :
  snd (verifyPasswordResetCode w email code st) = st \/
  snd (verifyPasswordResetCode w email code st) = delete email st.
Proof.
  destruct (verify_total w email code st) as [b [H|H]]; rewrite H; auto.
Qed.

Lemma reset_state w (email code pw : string) st :
  snd (resetPassword w email code pw st) = st \/
  snd (resetPassword w email code pw st) = delete email st.
Proof.
  destruct (verify_total w email code st) as [[|] [H|H]].
  - rewrite (reset_valid w email code pw st H).
    destruct (getUserByEmail w email st) as [[[user|]|err|] st1]; auto.
    destruct (auth_updateUser w (uid user) _); auto.
  - right. unfold resetPassword, try_catch at 1, bind. rewrite H.
    cbn [negb]. unfold ret at 1.
    pose proof (getUserByEmail_state w email (delete email st)) as Hs.
    destruct (getUserByEmail w email (delete email st)) as [[[user|]|err|] st1];
      cbn [snd] in Hs; subst st1; try reflexivity.
    unfold await, resetCodes_delete, ret.
    destruct (auth_updateUser w (uid user) _) as [[]|err]; cbn [snd];
      [apply delete_delete_eq|reflexivity].
  - left. rewrite (reset_invalid _ _ _ _ _ _ H). reflexivity.
  - right. rewrite (reset_invalid _ _ _ _ _ _ H). reflexivity.
Qed.

End Operations.

(** * The claims *)

Section Claims.

Implicit Types (w : Platform) (st : ResetCodes) (e : ResetEntry.t).

(** C1. Single consumption: when [resetPassword(r, code, newPassword)]
    returns normally, the entry of [r] has been deleted; from then on every
    [verifyPasswordResetCode(r, _)] returns false and every
    [resetPassword(r, _, _)] throws, whatever the time and the platform. *)
Theorem reset_consumes_code w (r code pw : string) st st' :
  resetPassword w r code pw st = (Return tt, st') ->
  st' = delete r st /\
  st' !! r = None /\
  (forall w' code',
     verifyPasswordResetCode w' r code' st' = (Return false, st')) /\
  (forall w' code' pw',
     resetPassword w' r code' pw' st' =
       (Throw (new_Error "Invalid or expired verification code"), st')).
Proof.
  intros H.
  assert (E : st' = delete r st).
  { destruct (verify_total w r code st) as [[|] [Hv|Hv]].
    - rewrite (reset_valid w r code pw st Hv) in H.
      destruct (getUserByEmail w r st) as [[[user|]|err|] st1];
        try discriminate H.
      destruct (auth_updateUser w (uid user) _); congruence.
    - pose proof (reset_state w r code pw st) as [Hs|Hs];
        rewrite H in Hs; cbn [snd] in Hs; [|assumption].
      exfalso. destruct (st !! r) as [e|] eqn:Hl.
      + destruct (Z_lt_le_dec (ResetEntry.expires e) (Date_now w)).
        * rewrite (verify_expired w r code st e Hl) in Hv by assumption.
          discriminate Hv.
        * rewrite (verify_live w r code st e Hl) in Hv by assumption.
          injection Hv as _ Hd. apply (f_equal (fun m => m !! r)) in Hd.
          rewrite lookup_delete_eq in Hd. congruence.
      + rewrite (verify_absent w r code st Hl) in Hv. discriminate Hv.
    - rewrite (reset_invalid _ _ _ _ _ _ Hv) in H. discriminate H.
    - rewrite (reset_invalid _ _ _ _ _ _ Hv) in H. discriminate H. }
  assert (Hnone : st' !! r = None) by (subst st'; apply lookup_delete_eq).
  repeat split; try assumption.
  - intros w' code'. apply verify_absent. assumption.
  - intros w' code' pw'. apply reset_invalid, verify_absent. assumption.
Qed.

Lemma reset_consumes_code_witness :
  let st := snd (sendPasswordResetCode
                   (sample_platform 0 one_half true true) "a@x.com" ∅) in
  let st' := snd (resetPassword (sample_platform 1000 one_half true true)
                    "a@x.com" "550000" "NewPass1!" st) in
  st' = delete "a@x.com" st /\
  st' !! "a@x.com" = None /\
  (forall w' code',
     verifyPasswordResetCode w' "a@x.com" code' st' = (Return false, st')) /\
  (forall w' code' pw',
     resetPassword w' "a@x.com" code' pw' st' =
       (Throw (new_Error "Invalid or expired verification code"), st')).
Proof.
  apply (reset_consumes_code (sample_platform 1000 one_half true true)
           "a@x.com" "550000" "NewPass1!").
  vm_compute. reflexivity.
Defined.

(** C2 as stated fails at the expiry instant itself: a code issued at time 0
    expires at 600000, and at time 600000 it is still accepted. *)
Lemma expiry_instant_still_valid :
  let st := snd (sendPasswordResetCode
                   (sample_platform 0 one_half true true) "a@x.com" ∅) in
  st !! "a@x.com" = Some (ResetEntry.mk "550000" 600000) /\
  verifyPasswordResetCode (sample_platform 600000 one_half true true)
    "a@x.com" "550000" st = (Return true, st).
Proof. vm_compute. split; reflexivity. Qed.

(** C2, amended. A code issued at time [T] is stored with expiry
    [T + 600000] ms.  With the correct code, verification returns true at
    every time up to and including the expiry (so at [T + 10min - 1s]);
    at every time strictly after it, verification returns false for any
    code and deletes the entry. *)
Theorem expiry_window w (r : string) st :
  Number.unit_interval (Math_random w) = true ->
  exists c,
    let st1 := snd (sendPasswordResetCode w r st) in
    st1 !! r = Some (ResetEntry.mk c (Date_now w + 10 * 60 * 1000)) /\
    (forall w', Date_now w' = Date_now w + 10 * 60 * 1000 - 1000 ->
       verifyPasswordResetCode w' r c st1 = (Return true, st1)) /\
    (forall w', Date_now w' <= Date_now w + 10 * 60 * 1000 ->
       verifyPasswordResetCode w' r c st1 = (Return true, st1)) /\
    (forall w' c', Date_now w + 10 * 60 * 1000 < Date_now w' ->
       verifyPasswordResetCode w' r c' st1 = (Return false, delete r st1)).
Proof.
  intros Hu.
  destruct (generate_code_between _ Hu) as (n & _ & Hc).
  exists (Number.decimal n). cbn zeta.
  rewrite (send_spec w r _ st Hc). cbn [snd].
  change (10 * 60 * 1000) with 600000.
  set (e := ResetEntry.mk (Number.decimal n) (Date_now w + 600000)).
  assert (Hl : <[r := e]> st !! r = Some e) by apply lookup_insert_eq.
  assert (Hlive : forall w', Date_now w' <= Date_now w + 600000 ->
            verifyPasswordResetCode w' r (Number.decimal n) (<[r := e]> st)
            = (Return true, <[r := e]> st)).
  { intros w' Ht. rewrite (verify_live w' r _ _ e Hl) by (cbn; lia).
    rewrite bool_decide_eq_true_2 by reflexivity. reflexivity. }
  repeat split.
  - exact Hl.
  - intros w' Ht. apply Hlive. lia.
  - exact Hlive.
  - intros w' c' Ht. apply (verify_expired w' r c' _ e Hl). cbn; lia.
Qed.

Lemma expiry_window_witness :
  exists c,
    let w := sample_platform 0 one_half true true in
    let st1 := snd (sendPasswordResetCode w "a@x.com" ∅) in
    st1 !! "a@x.com" = Some (ResetEntry.mk c (Date_now w + 10 * 60 * 1000)) /\
    (forall w', Date_now w' = Date_now w + 10 * 60 * 1000 - 1000 ->
       verifyPasswordResetCode w' "a@x.com" c st1 = (Return true, st1)) /\
    (forall w', Date_now w' <= Date_now w + 10 * 60 * 1000 ->
       verifyPasswordResetCode w' "a@x.com" c st1 = (Return true, st1)) /\
    (forall w' c', Date_now w + 10 * 60 * 1000 < Date_now w' ->
       verifyPasswordResetCode w' "a@x.com" c' st1
       = (Return false, delete "a@x.com" st1)).
Proof.
  apply (expiry_window (sample_platform 0 one_half true true) "a@x.com" ∅).
  vm_compute. reflexivity.
Defined.

(** C3 as stated fails when the generator draws the same code again: after
    two issuances that both produce ["550000"], the first code is accepted. *)
Lemma reissued_same_code_still_valid :
  let st1 := snd (sendPasswordResetCode
                    (sample_platform 0 one_half true true) "a@x.com" ∅) in
  let st2 := snd (sendPasswordResetCode
                    (sample_platform 1000 one_half true true) "a@x.com" st1) in
  st1 !! "a@x.com" = Some (ResetEntry.mk "550000" 600000) /\
  verifyPasswordResetCode (sample_platform 2000 one_half true true)
    "a@x.com" "550000" st2 = (Return true, st2).
Proof. vm_compute. split; reflexivity. Qed.

(** C3, amended. When [r] is issued a code [c1] and then a code [c2]
    different from [c1], the map holds [c2] only, and verifying [c1] returns
    false at every later time, also before [c1] would have expired. *)
Theorem reissue_supersedes w1 w2 (r c1 c2 : string) st :
  generate_code (Math_random w1) = Some c1 ->
  generate_code (Math_random w2) = Some c2 ->
  c1 <> c2 ->
  let st1 := snd (sendPasswordResetCode w1 r st) in
  let st2 := snd (sendPasswordResetCode w2 r st1) in
  st1 !! r = Some (ResetEntry.mk c1 (Date_now w1 + 10 * 60 * 1000)) /\
  st2 !! r = Some (ResetEntry.mk c2 (Date_now w2 + 10 * 60 * 1000)) /\
  forall w', fst (verifyPasswordResetCode w' r c1 st2) = Return false.
Proof.
  intros H1 H2 Hne. cbn zeta.
  rewrite (send_spec w1 r c1 st H1). cbn [snd].
  rewrite (send_spec w2 r c2 _ H2). cbn [snd].
  change (10 * 60 * 1000) with 600000.
  rewrite !lookup_insert_eq. repeat split.
  intros w'.
  set (e2 := ResetEntry.mk c2 (Date_now w2 + 600000)).
  set (st2 := <[r := e2]> _).
  assert (Hl : st2 !! r = Some e2) by apply lookup_insert_eq.
  destruct (Z_lt_le_dec (ResetEntry.expires e2) (Date_now w')) as [Ht|Ht].
  - rewrite (verify_expired w' r c1 st2 e2 Hl Ht). reflexivity.
  - rewrite (verify_live w' r c1 st2 e2 Hl Ht). cbn [fst].
    rewrite bool_decide_eq_false_2; [reflexivity|]. cbn. congruence.
Qed.

Lemma reissue_supersedes_witness :
  let w1 := sample_platform 0 one_half true true in
  let w2 := sample_platform 1000 one_quarter true true in
  let st1 := snd (sendPasswordResetCode w1 "a@x.com" ∅) in
  let st2 := snd (sendPasswordResetCode w2 "a@x.com" st1) in
  st1 !! "a@x.com"
    = Some (ResetEntry.mk "550000" (Date_now w1 + 10 * 60 * 1000)) /\
  st2 !! "a@x.com"
    = Some (ResetEntry.mk "325000" (Date_now w2 + 10 * 60 * 1000)) /\
  forall w', fst (verifyPasswordResetCode w' "a@x.com" "550000" st2)
             = Return false.
Proof.
  apply (reissue_supersedes (sample_platform 0 one_half true true)
           (sample_platform 1000 one_quarter true true)
           "a@x.com" "550000" "325000" ∅).
  - vm_compute. reflexivity.
  - vm_compute. reflexivity.
  - discriminate.
Defined.

(** C4. Verification does not consume: on an entry holding [c], any number
    of calls [verifyPasswordResetCode(r, c)] made no later than the expiry
    all return true, and the map is the same afterwards. *)
Theorem verify_does_not_consume (ws : list Platform) (r : string) st e :
  st !! r = Some e ->
  Forall (fun w => Date_now w <= ResetEntry.expires e) ws ->
  verify_repeatedly ws r (ResetEntry.code e) st
    = (map (fun _ => Return true) ws, st).
Proof.
  intros Hl Hall. induction Hall as [|w ws Hw _ IH]; [reflexivity|].
  cbn [verify_repeatedly map].
  rewrite (verify_live w r _ st e Hl Hw), IH.
  rewrite bool_decide_eq_true_2 by reflexivity. reflexivity.
Qed.

Lemma verify_does_not_consume_witness :
  let st := snd (sendPasswordResetCode
                   (sample_platform 0 one_half true true) "a@x.com" ∅) in
  let ws := [sample_platform 1 one_half true true;
             sample_platform 300000 one_quarter false false;
             sample_platform 600000 one_half true true] in
  verify_repeatedly ws "a@x.com" "550000" st
    = ([Return true; Return true; Return true], st).
Proof.
  apply (verify_does_not_consume
           [sample_platform 1 one_half true true;
            sample_platform 300000 one_quarter false false;
            sample_platform 600000 one_half true true]
           "a@x.com" _ (ResetEntry.mk "550000" 600000)).
  - vm_compute. reflexivity.
  - repeat constructor; vm_compute; discriminate.
Defined.

(** C5. When the identity platform rejects the new password,
    [resetPassword] rethrows its error and the entry stays; a later
    [resetPassword] with the same code, no later than the expiry, and a
    password the platform accepts returns normally and deletes the entry. *)
Theorem rejected_password_keeps_code w1 w2 (r bad good u1 u2 : string)
    (user1 user2 : UserRecord) (err : JsError) st e :
  st !! r = Some e ->
  Date_now w1 <= ResetEntry.expires e ->
  auth_getUserByEmail w1 r = Fulfilled u1 ->
  users_doc_get w1 u1 = Fulfilled (Some user1) ->
  auth_updateUser w1 (uid user1)
    {| upd_password := Some bad; upd_photoURL := None |} = Rejected err ->
  Date_now w2 <= ResetEntry.expires e ->
  auth_getUserByEmail w2 r = Fulfilled u2 ->
  users_doc_get w2 u2 = Fulfilled (Some user2) ->
  auth_updateUser w2 (uid user2)
    {| upd_password := Some good; upd_photoURL := None |} = Fulfilled tt ->
  resetPassword w1 r (ResetEntry.code e) bad st = (Throw err, st) /\
  resetPassword w2 r (ResetEntry.code e) good st = (Return tt, delete r st).
Proof.
  intros Hl Ht1 Ha1 Hd1 Hu1 Ht2 Ha2 Hd2 Hu2.
  assert (Hv : forall w, Date_now w <= ResetEntry.expires e ->
            verifyPasswordResetCode w r (ResetEntry.code e) st
            = (Return true, st)).
  { intros w Ht. rewrite (verify_live w r _ st e Hl Ht).
    rewrite bool_decide_eq_true_2 by reflexivity. reflexivity. }
  split.
  - rewrite (reset_valid w1 r _ bad st (Hv w1 Ht1)).
    rewrite (getUserByEmail_found w1 r u1 user1 st Ha1 Hd1), Hu1.
    reflexivity.
  - rewrite (reset_valid w2 r _ good st (Hv w2 Ht2)).
    rewrite (getUserByEmail_found w2 r u2 user2 st Ha2 Hd2), Hu2.
    reflexivity.
Qed.

Lemma rejected_password_keeps_code_witness :
  let st := snd (sendPasswordResetCode
                   (sample_platform 0 one_half true true) "a@x.com" ∅) in
  resetPassword (sample_platform 1000 one_half true true)
    "a@x.com" "550000" "abc" st
    = (Throw weak_password, st) /\
  resetPassword (sample_platform 2000 one_half true true)
    "a@x.com" "550000" "NewPass1!" st
    = (Return tt, delete "a@x.com" st).
Proof.
  apply (rejected_password_keeps_code
           (sample_platform 1000 one_half true true)
           (sample_platform 2000 one_half true true)
           "a@x.com" "abc" "NewPass1!" "uid:a@x.com" "uid:a@x.com"
           (sample_user "uid:a@x.com" "a@x.com")
           (sample_user "uid:a@x.com" "a@x.com")
           _ _ (ResetEntry.mk "550000" 600000)).
  - vm_compute. reflexivity.
  - vm_compute. discriminate.
  - reflexivity.
  - reflexivity.
  - reflexivity.
  - vm_compute. discriminate.
  - reflexivity.
  - reflexivity.
  - reflexivity.
Defined.

(** C6. Whatever value of [0, 1) the random generator returns, the code
    that [sendPasswordResetCode] stores and hands to the mailer is the
    decimal form of an integer from 100000 to 999999: six decimal digits,
    the first of them not ['0']. *)
Theorem issued_code_six_digits w (r : string) st :
  Number.unit_interval (Math_random w) = true ->
  exists n c,
    100000 <= n <= 999999 /\
    c = Number.decimal n /\
    parse_decimal c = Some n /\
    is_six_digit_code c = true /\
    generate_code (Math_random w) = Some c /\
    snd (sendPasswordResetCode w r st) !! r
      = Some (ResetEntry.mk c (Date_now w + 10 * 60 * 1000)) /\
    fst (sendPasswordResetCode w r st)
      = match email_sendPasswordResetCode w r c with
        | Fulfilled _ => Return tt
        | Rejected _ => Throw (new_Error "Failed to send password reset code")
        end.
Proof.
  intros Hu. destruct (generate_code_between _ Hu) as (n & Hn & Hc).
  exists n, (Number.decimal n).
  rewrite (send_spec w r _ st Hc). cbn [fst snd].
  rewrite lookup_insert_eq.
  repeat split; try lia; try reflexivity; try assumption.
  - apply decimal_value.
  - apply decimal_six_digits. exact Hn.
Qed.

Lemma issued_code_six_digits_witness :
  let w := sample_platform 0 one_half true true in
  exists n c,
    100000 <= n <= 999999 /\
    c = Number.decimal n /\
    parse_decimal c = Some n /\
    is_six_digit_code c = true /\
    generate_code (Math_random w) = Some c /\
    snd (sendPasswordResetCode w "a@x.com" ∅) !! "a@x.com"
      = Some (ResetEntry.mk c (Date_now w + 10 * 60 * 1000)) /\
    fst (sendPasswordResetCode w "a@x.com" ∅)
      = match email_sendPasswordResetCode w "a@x.com" c with
        | Fulfilled _ => Return tt
        | Rejected _ => Throw (new_Error "Failed to send password reset code")
        end.
Proof.
  apply (issued_code_six_digits (sample_platform 0 one_half true true)
           "a@x.com" ∅).
  vm_compute. reflexivity.
Defined.

(** C7 as stated fails: called with the empty string,
    [sendPasswordResetCode] stores an entry under the empty key, and
    returns normally when the mail goes out. *)
Lemma empty_recipient_is_stored :
  sendPasswordResetCode (sample_platform 0 one_half true true) "" ∅
    = (Return tt, {[ ""%string := ResetEntry.mk "550000" 600000 ]}) /\
  snd (sendPasswordResetCode (sample_platform 0 one_half false true) "" ∅)
    !! ""%string = Some (ResetEntry.mk "550000" 600000).
Proof. vm_compute. split; reflexivity. Qed.

(** C7, amended. [sendPasswordResetCode] does not inspect the recipient:
    for every string, empty or not, it stores a fresh entry under it; it
    returns normally when the mailer delivers and throws
    ['Failed to send password reset code'] when the mailer fails. *)
Theorem recipient_not_checked w (r : string) st :
  Number.unit_interval (Math_random w) = true ->
  exists c,
    snd (sendPasswordResetCode w r st)
      = <[r := ResetEntry.mk c (Date_now w + 10 * 60 * 1000)]> st /\
    (forall ok, email_sendPasswordResetCode w r c = Fulfilled ok ->
       fst (sendPasswordResetCode w r st) = Return tt) /\
    (forall err, email_sendPasswordResetCode w r c = Rejected err ->
       fst (sendPasswordResetCode w r st)
         = Throw (new_Error "Failed to send password reset code")).
Proof.
  intros Hu. destruct (generate_code_between _ Hu) as (n & _ & Hc).
  exists (Number.decimal n). rewrite (send_spec w r _ st Hc). cbn [fst snd].
  repeat split.
  - intros ok ->. reflexivity.
  - intros err ->. reflexivity.
Qed.

Lemma recipient_not_checked_witness :
  let w := sample_platform 0 one_half true true in
  exists c,
    snd (sendPasswordResetCode w "" ∅)
      = <[""%string := ResetEntry.mk c (Date_now w + 10 * 60 * 1000)]> ∅ /\
    (forall ok, email_sendPasswordResetCode w "" c = Fulfilled ok ->
       fst (sendPasswordResetCode w "" ∅) = Return tt) /\
    (forall err, email_sendPasswordResetCode w "" c = Rejected err ->
       fst (sendPasswordResetCode w "" ∅)
         = Throw (new_Error "Failed to send password reset code")).
Proof.
  apply (recipient_not_checked (sample_platform 0 one_half true true) "" ∅).
  vm_compute. reflexivity.
Defined.

(** C8. When the mailer fails, [sendPasswordResetCode] throws, but the
    entry it stored before calling the mailer stays: verifying the
    generated code no later than its expiry returns true. *)
Theorem undelivered_code_stays_valid w (r c : string) (err : JsError) st :
  generate_code (Math_random w) = Some c ->
  email_sendPasswordResetCode w r c = Rejected err ->
  let st1 := snd (sendPasswordResetCode w r st) in
  fst (sendPasswordResetCode w r st)
    = Throw (new_Error "Failed to send password reset code") /\
  st1 !! r = Some (ResetEntry.mk c (Date_now w + 10 * 60 * 1000)) /\
  forall w', Date_now w' <= Date_now w + 10 * 60 * 1000 ->
    verifyPasswordResetCode w' r c st1 = (Return true, st1).
Proof.
  intros Hc Hmail. cbn zeta. rewrite (send_spec w r c st Hc), Hmail.
  cbn [fst snd]. change (10 * 60 * 1000) with 600000.
  set (e := ResetEntry.mk c (Date_now w + 600000)).
  assert (Hl : <[r := e]> st !! r = Some e) by apply lookup_insert_eq.
  repeat split; [exact Hl|].
  intros w' Ht. rewrite (verify_live w' r c _ e Hl) by (cbn; lia).
  rewrite bool_decide_eq_true_2 by reflexivity. reflexivity.
Qed.

Lemma undelivered_code_stays_valid_witness :
  let w := sample_platform 0 one_half false true in
  let st1 := snd (sendPasswordResetCode w "a@x.com" ∅) in
  fst (sendPasswordResetCode w "a@x.com" ∅)
    = Throw (new_Error "Failed to send password reset code") /\
  st1 !! "a@x.com"
    = Some (ResetEntry.mk "550000" (Date_now w + 10 * 60 * 1000)) /\
  forall w', Date_now w' <= Date_now w + 10 * 60 * 1000 ->
    verifyPasswordResetCode w' "a@x.com" "550000" st1 = (Return true, st1).
Proof.
  apply (undelivered_code_stays_valid (sample_platform 0 one_half false true)
           "a@x.com" "550000" (new_Error "SMTP connection refused") ∅).
  - vm_compute. reflexivity.
  - reflexivity.
Defined.

(** C9. [sendPasswordResetCode] and [verifyPasswordResetCode] never consult
    the identity platform: two platforms that agree on the clock, the random
    generator and the mailer, and differ in any way in what [this.auth] and
    [this.db] answer (so in whether the recipient has an account), give the
    same result and the same map. *)
Theorem issue_verify_ignore_accounts w1 w2 (r code : string) st :
  Date_now w1 = Date_now w2 ->
  Math_random w1 = Math_random w2 ->
  (forall c, email_sendPasswordResetCode w1 r c
             = email_sendPasswordResetCode w2 r c) ->
  sendPasswordResetCode w1 r st = sendPasswordResetCode w2 r st /\
  verifyPasswordResetCode w1 r code st = verifyPasswordResetCode w2 r code st.
Proof.
  intros Hnow Hrnd Hmail. split.
  - unfold sendPasswordResetCode, try_catch, bind, modelled.
    rewrite Hrnd, Hnow.
    destruct (generate_code (Math_random w2)) as [c|]; [|reflexivity].
    unfold resetCodes_set, await. rewrite Hmail. reflexivity.
  - unfold verifyPasswordResetCode. rewrite Hnow. reflexivity.
Qed.

Lemma issue_verify_ignore_accounts_witness :
  let with_account := sample_platform 0 one_half true true in
  let without_account := sample_platform 0 one_half true false in
  auth_getUserByEmail with_account "a@x.com"
    <> auth_getUserByEmail without_account "a@x.com" /\
  sendPasswordResetCode with_account "a@x.com" ∅
    = sendPasswordResetCode without_account "a@x.com" ∅ /\
  verifyPasswordResetCode with_account "a@x.com" "550000" ∅
    = verifyPasswordResetCode without_account "a@x.com" "550000" ∅.
Proof.
  split; [discriminate|].
  apply (issue_verify_ignore_accounts
           (sample_platform 0 one_half true true)
           (sample_platform 0 one_half true false) "a@x.com" "550000" ∅).
  - reflexivity.
  - reflexivity.
  - intros c. reflexivity.
Defined.

(** C10. A call for recipient [r] leaves the entry of every other recipient
    [r'] as it was: present or absent, with the same code and expiry. *)
Theorem other_recipients_untouched w (r r' code pw : string) st :
  r <> r' ->
  snd (sendPasswordResetCode w r st) !! r' = st !! r' /\
  snd (verifyPasswordResetCode w r code st) !! r' = st !! r' /\
  snd (resetPassword w r code pw st) !! r' = st !! r'.
Proof.
  intros Hne. repeat split.
  - destruct (send_state w r st) as [->|[e ->]];
      [reflexivity|apply lookup_insert_ne; assumption].
  - destruct (verify_state w r code st) as [->| ->];
      [reflexivity|apply lookup_delete_ne; assumption].
  - destruct (reset_state w r code pw st) as [->| ->];
      [reflexivity|apply lookup_delete_ne; assumption].
Qed.

Lemma other_recipients_untouched_witness :
  let w := sample_platform 1000 one_quarter true true in
  let st := snd (sendPasswordResetCode
                   (sample_platform 0 one_half true true) "b@y.org" ∅) in
  snd (sendPasswordResetCode w "a@x.com" st) !! "b@y.org" = st !! "b@y.org" /\
  snd (verifyPasswordResetCode w "a@x.com" "325000" st) !! "b@y.org"
    = st !! "b@y.org" /\
  snd (resetPassword w "a@x.com" "325000" "NewPass1!" st) !! "b@y.org"
    = st !! "b@y.org".
Proof.
  apply (other_recipients_untouched
           (sample_platform 1000 one_quarter true true)
           "a@x.com" "b@y.org" "325000" "NewPass1!").
  discriminate.
Defined.

End Claims.

(** * Further properties of the password-reset methods *)

Section ResetFlow.

Implicit Types (w : Platform) (st : ResetCodes) (e : ResetEntry.t).

(** X1. Wrong guesses cost nothing: any number of verifications with codes
    other than the stored one, made no later than the expiry, all return
    false and leave the map as it was, so the stored code still verifies
    afterwards.  There is no limit on attempts. *)
Theorem wrong_guesses_keep_code (calls : list (Platform * string))
    (r : string) st e :
  st !! r = Some e ->
  Forall (fun call => Date_now (fst call) <= ResetEntry.expires e
                      /\ snd call <> ResetEntry.code e) calls ->
  verify_guesses calls r st = (map (fun _ => Return false) calls, st) /\
  forall w, Date_now w <= ResetEntry.expires e ->
    verifyPasswordResetCode w r (ResetEntry.code e)
      (snd (verify_guesses calls r st)) = (Return true, st).
Proof.
  intros Hl Hall.
  assert (E : verify_guesses calls r st
              = (map (fun _ => Return false) calls, st)).
  { induction Hall as [|[w g] calls [Hw Hg] _ IH]; [reflexivity|].
    cbn [verify_guesses map fst snd] in *.
    rewrite (verify_live w r g st e Hl Hw), IH.
    rewrite bool_decide_eq_false_2 by congruence. reflexivity. }
  split; [exact E|]. intros w Hw. rewrite E. cbn [snd].
  rewrite (verify_live w r _ st e Hl Hw).
  rewrite bool_decide_eq_true_2 by reflexivity. reflexivity.
Qed.

Lemma wrong_guesses_keep_code_witness :
  let st := snd (sendPasswordResetCode
                   (sample_platform 0 one_half true true) "a@x.com" ∅) in
  let calls := [(sample_platform 1 one_half true true, "000000"%string);
                (sample_platform 2 one_half true true, "123456"%string);
                (sample_platform 3 one_half true true, "55000"%string)] in
  verify_guesses calls "a@x.com" st
    = ([Return false; Return false; Return false], st) /\
  forall w, Date_now w <= 600000 ->
    verifyPasswordResetCode w "a@x.com" "550000"
      (snd (verify_guesses calls "a@x.com" st)) = (Return true, st).
Proof.
  apply (wrong_guesses_keep_code
           [(sample_platform 1 one_half true true, "000000"%string);
            (sample_platform 2 one_half true true, "123456"%string);
            (sample_platform 3 one_half true true, "55000"%string)]
           "a@x.com" _ (ResetEntry.mk "550000" 600000)).
  - vm_compute. reflexivity.
  - repeat constructor; cbn; try lia; discriminate.
Defined.

(** X2. A valid code for a recipient the identity platform does not know
    (no account, or an account without a document) makes [resetPassword]
    throw ['User not found'] and keeps the entry. *)
Theorem reset_unknown_account_keeps_code w (r pw : string) st e :
  st !! r = Some e ->
  Date_now w <= ResetEntry.expires e ->
  fst (getUserByEmail w r st) = Return None ->
  resetPassword w r (ResetEntry.code e) pw st
    = (Throw (new_Error "User not found"), st).
Proof.
  intros Hl Ht Hu.
  assert (Hv : verifyPasswordResetCode w r (ResetEntry.code e) st
               = (Return true, st)).
  { rewrite (verify_live w r _ st e Hl Ht).
    rewrite bool_decide_eq_true_2 by reflexivity. reflexivity. }
  rewrite (reset_valid w r _ pw st Hv).
  destruct (getUserByEmail w r st) as [o st1]. cbn [fst] in Hu. subst o.
  reflexivity.
Qed.

Lemma reset_unknown_account_keeps_code_witness :
  let st := snd (sendPasswordResetCode
                   (sample_platform 0 one_half true false) "a@x.com" ∅) in
  resetPassword (sample_platform 1000 one_half true false)
    "a@x.com" "550000" "NewPass1!" st
    = (Throw (new_Error "User not found"), st).
Proof.
  apply (reset_unknown_account_keeps_code
           (sample_platform 1000 one_half true false)
           "a@x.com" "NewPass1!" _ (ResetEntry.mk "550000" 600000)).
  - vm_compute. reflexivity.
  - vm_compute. discriminate.
  - reflexivity.
Defined.

(** X3. With a code that does not verify (no entry, expired, or wrong),
    [resetPassword] throws ['Invalid or expired verification code'] without
    consulting the identity platform: the result and the map are the same
    on any platform with the same clock and for any new password, and the
    map is the one [verifyPasswordResetCode] leaves (an expired entry is
    deleted). *)
Theorem reset_invalid_skips_platform w1 w2 (r code pw1 pw2 : string) st :
  fst (verifyPasswordResetCode w1 r code st) = Return false ->
  Date_now w1 = Date_now w2 ->
  resetPassword w1 r code pw1 st
    = (Throw (new_Error "Invalid or expired verification code"),
       snd (verifyPasswordResetCode w1 r code st)) /\
  resetPassword w2 r code pw2 st = resetPassword w1 r code pw1 st.
Proof.
  intros Hv Hnow.
  assert (E : verifyPasswordResetCode w2 r code st
              = verifyPasswordResetCode w1 r code st).
  { unfold verifyPasswordResetCode. rewrite Hnow. reflexivity. }
  destruct (verifyPasswordResetCode w1 r code st) as [o st1] eqn:H1.
  cbn [fst snd] in *. subst o.
  rewrite (reset_invalid w1 r code pw1 st st1 H1).
  rewrite (reset_invalid w2 r code pw2 st st1 E). split; reflexivity.
Qed.

Lemma reset_invalid_skips_platform_witness :
  let st := snd (sendPasswordResetCode
                   (sample_platform 0 one_half true true) "a@x.com" ∅) in
  let late := sample_platform 600001 one_half true true in
  let late' := sample_platform 600001 one_quarter false false in
  resetPassword late "a@x.com" "550000" "NewPass1!" st
    = (Throw (new_Error "Invalid or expired verification code"),
       snd (verifyPasswordResetCode late "a@x.com" "550000" st)) /\
  resetPassword late' "a@x.com" "550000" "abc" st
    = resetPassword late "a@x.com" "550000" "NewPass1!" st.
Proof.
  apply (reset_invalid_skips_platform
           (sample_platform 600001 one_half true true)
           (sample_platform 600001 one_quarter false false)
           "a@x.com" "550000" "NewPass1!" "abc").
  - vm_compute. reflexivity.
  - reflexivity.
Defined.

(** X4. A failure of the account lookup other than ['auth/user-not-found']
    reaches the caller of [resetPassword] as it is, and the entry stays. *)
Theorem reset_rethrows_lookup_error w (r pw : string) (err : JsError) st e :
  st !! r = Some e ->
  Date_now w <= ResetEntry.expires e ->
  auth_getUserByEmail w r = Rejected err ->
  err_code err <> Some "auth/user-not-found"%string ->
  resetPassword w r (ResetEntry.code e) pw st = (Throw err, st).
Proof.
  intros Hl Ht Ha Hc.
  assert (Hv : verifyPasswordResetCode w r (ResetEntry.code e) st
               = (Return true, st)).
  { rewrite (verify_live w r _ st e Hl Ht).
    rewrite bool_decide_eq_true_2 by reflexivity. reflexivity. }
  rewrite (reset_valid w r _ pw st Hv).
  unfold getUserByEmail, try_catch, bind, await. rewrite Ha.
  rewrite bool_decide_eq_false_2 by assumption. reflexivity.
Qed.

Lemma reset_rethrows_lookup_error_witness :
  let outage := {| err_class := PlainError;
                   err_code := Some "auth/internal-error"%string;
                   err_message := "backend unavailable" |} in
  let w := {| Date_now := 1000;
              Math_random := one_half;
              config_get := fun _ => None;
              email_sendPasswordResetCode := fun _ _ => Fulfilled tt;
              auth_getUserByEmail := fun _ => Rejected outage;
              auth_createUser := fun _ => Rejected outage;
              auth_updateUser := fun _ _ => Rejected outage;
              auth_createCustomToken := fun _ => Rejected outage;
              identitytoolkit_signInWithPassword :=
                fun _ _ _ => Rejected outage;
              users_doc_get := fun _ => Rejected outage;
              users_doc_set := fun _ _ => Rejected outage;
              users_doc_update := fun _ _ => Rejected outage;
              doc_get := fun _ _ => Rejected outage;
              collection_get := fun _ => Rejected outage |} in
  let st := snd (sendPasswordResetCode
                   (sample_platform 0 one_half true true) "a@x.com" ∅) in
  resetPassword w "a@x.com" "550000" "NewPass1!" st = (Throw outage, st).
Proof.
  cbn zeta.
  apply (reset_rethrows_lookup_error _ "a@x.com" "NewPass1!" _ _
           (ResetEntry.mk "550000" 600000)).
  - vm_compute. reflexivity.
  - vm_compute. discriminate.
  - reflexivity.
  - discriminate.
Defined.

(** X5. The whole flow: a code issued at time [T], whether or not its mail
    went out, resets the password at any time up to [T + 10 min] when the
    account exists and the platform accepts the new password; afterwards
    the map is the one before the issuance, without an entry for [r]. *)
Theorem issue_then_reset w0 w1 (r pw u : string) (user : UserRecord) st :
  Number.unit_interval (Math_random w0) = true ->
  Date_now w1 <= Date_now w0 + 10 * 60 * 1000 ->
  auth_getUserByEmail w1 r = Fulfilled u ->
  users_doc_get w1 u = Fulfilled (Some user) ->
  auth_updateUser w1 (uid user)
    {| upd_password := Some pw; upd_photoURL := None |} = Fulfilled tt ->
  exists c,
    generate_code (Math_random w0) = Some c /\
    resetPassword w1 r c pw (snd (sendPasswordResetCode w0 r st))
      = (Return tt, delete r st).
Proof.
  intros Hu Ht Ha Hd Hup.
  destruct (generate_code_between _ Hu) as (n & _ & Hc).
  exists (Number.decimal n). split; [exact Hc|].
  rewrite (send_spec w0 r _ st Hc). cbn [snd].
  change (10 * 60 * 1000) with 600000 in Ht.
  set (e := ResetEntry.mk (Number.decimal n) (Date_now w0 + 600000)).
  pose proof (reset_succeeds w1 r pw u user (<[r := e]> st) e) as H.
  cbn [ResetEntry.code e] in H. rewrite H; try assumption.
  - rewrite delete_insert_eq. reflexivity.
  - apply lookup_insert_eq.
Qed.

Lemma issue_then_reset_witness :
  exists c,
    generate_code one_half = Some c /\
    resetPassword (sample_platform 600000 one_quarter true true)
      "a@x.com" c "NewPass1!"
      (snd (sendPasswordResetCode (sample_platform 0 one_half false true)
              "a@x.com" ∅))
      = (Return tt, delete "a@x.com" ∅).
Proof.
  apply (issue_then_reset (sample_platform 0 one_half false true)
           (sample_platform 600000 one_quarter true true)
           "a@x.com" "NewPass1!" "uid:a@x.com"
           (sample_user "uid:a@x.com" "a@x.com") ∅).
  - vm_compute. reflexivity.
  - vm_compute. discriminate.
  - reflexivity.
  - reflexivity.
  - reflexivity.
Defined.

End ResetFlow.

(** * Account lookups *)

Section Lookups.

Implicit Types (w : Platform) (st : ResetCodes).

(** X6. [getUserByEmail] returns a user exactly when the account exists
    and has a document, and that document is what it returns. *)
Theorem getUserByEmail_some_iff w (mail : string) (data : UserRecord) st :
  getUserByEmail w mail st = (Return (Some data), st) <->
  exists u, auth_getUserByEmail w mail = Fulfilled u /\
            users_doc_get w u = Fulfilled (Some data).
Proof.
  unfold getUserByEmail, try_catch, bind, await. split.
  - destruct (auth_getUserByEmail w mail) as [u|err].
    + destruct (users_doc_get w u) as [[d|]|err] eqn:Hd; cbn.
      * intros [= ->]. exists u. auto.
      * discriminate.
      * destruct (bool_decide _); discriminate.
    + cbn. destruct (bool_decide _); discriminate.
  - intros (u & -> & ->). reflexivity.
Qed.

(** X7. [getUserByEmail] never throws ['auth/user-not-found']: an error it
    throws is one the platform raised, with another code or none; a
    not-found failure, from the account lookup or from the document read,
    comes back as [null].  The map of codes is not touched. *)
Theorem getUserByEmail_not_found_is_null w (mail : string) st :
  snd (getUserByEmail w mail st) = st /\
  fst (getUserByEmail w mail st) <> Unmodelled /\
  (forall err, fst (getUserByEmail w mail st) = Throw err ->
     err_code err <> Some "auth/user-not-found"%string /\
     (auth_getUserByEmail w mail = Rejected err \/
      exists u, auth_getUserByEmail w mail = Fulfilled u /\
                users_doc_get w u = Rejected err)) /\
  (forall err, err_code err = Some "auth/user-not-found"%string ->
     auth_getUserByEmail w mail = Rejected err \/
     (exists u, auth_getUserByEmail w mail = Fulfilled u /\
                users_doc_get w u = Rejected err) ->
     fst (getUserByEmail w mail st) = Return None).
Proof.
  split; [apply getUserByEmail_state|].
  unfold getUserByEmail, try_catch, bind, await.
  destruct (auth_getUserByEmail w mail) as [u|err0].
  - destruct (users_doc_get w u) as [[d|]|err0] eqn:Hd; cbn.
    + split; [discriminate|]. split; [discriminate|].
      intros err _ [H|(u' & [= <-] & H)]; [discriminate|congruence].
    + split; [discriminate|]. split; [discriminate|]. reflexivity.
    + destruct (bool_decide (err_code err0 = _)) eqn:Hb; cbn.
      * split; [discriminate|]. split; [discriminate|]. reflexivity.
      * apply bool_decide_eq_false in Hb.
        split; [discriminate|]. split.
        -- intros err [= <-]. split; [assumption|]. right. eauto.
        -- intros err Hc [H|(u' & [= <-] & H)]; [discriminate|].
           rewrite Hd in H. injection H as <-. contradiction.
  - cbn. destruct (bool_decide (err_code err0 = _)) eqn:Hb; cbn.
    + split; [discriminate|]. split; [discriminate|]. reflexivity.
    + apply bool_decide_eq_false in Hb.
      split; [discriminate|]. split.
      * intros err [= <-]. split; [assumption|]. left. reflexivity.
      * intros err Hc [[= <-]|(u' & H & _)]; [contradiction|discriminate].
Qed.

(** X8. [getUserByUid] wraps every failure of the document read: what it
    throws is a plain [Error] without a code whose message is
    ['Error getting user: '] followed by the platform's message, or by
    ['Unknown error'] when that message is empty.  A missing document is
    [null], not an error. *)
Theorem getUserByUid_outcome w (u : string) st :
  snd (getUserByUid w u st) = st /\
  (forall o, users_doc_get w u = Fulfilled o ->
     fst (getUserByUid w u st) = Return o) /\
  (forall err, users_doc_get w u = Rejected err ->
     exists thrown,
       fst (getUserByUid w u st) = Throw thrown /\
       err_class thrown = PlainError /\
       err_code thrown = None /\
       String.prefix "Error getting user: " (err_message thrown) = true /\
       (err_message err <> ""%string ->
        err_message thrown = ("Error getting user: " ++ err_message err)%string) /\
       (err_message err = ""%string ->
        err_message thrown = "Error getting user: Unknown error"%string)).
Proof.
  unfold getUserByUid, try_catch, bind, await.
  destruct (users_doc_get w u) as [[d|]|err0]; cbn.
  - split; [reflexivity|]. split; [|discriminate].
    intros o [= <-]. reflexivity.
  - split; [reflexivity|]. split; [|discriminate].
    intros o [= <-]. reflexivity.
  - split; [reflexivity|]. split; [discriminate|]. intros err [= <-].
    eexists. split; [reflexivity|]. cbn.
    split; [reflexivity|]. split; [reflexivity|].
    split; [simpl; destruct (or_else _ _); reflexivity|].
    split.
    + intros Hne. unfold or_else.
      destruct (String.eqb_spec (err_message err0) ""); [contradiction|].
      reflexivity.
    + intros ->. reflexivity.
Qed.

End Lookups.

(** * Signing in and signing up *)

Section Accounts.

Implicit Types (w : Platform) (st : ResetCodes).

(** X9. [verifyPassword] fails in one way only: whatever goes wrong
    (unknown email, wrong password, sign-in endpoint unreachable, missing
    document, token creation failing), the caller gets
    [UnauthorizedException('Invalid credentials')] and cannot tell the
    cases apart. *)
Theorem verifyPassword_fails_uniformly w (mail pw : string) st :
  snd (verifyPassword w mail pw st) = st /\
  ((exists resp, fst (verifyPassword w mail pw st) = Return resp) \/
   fst (verifyPassword w mail pw st)
     = Throw (new_Exception UnauthorizedException "Invalid credentials")).
Proof.
  unfold verifyPassword, try_catch, bind, await.
  destruct (auth_getUserByEmail w mail) as [u|err]; cbn; [|auto].
  destruct (identitytoolkit_signInWithPassword w _ mail pw) as [resp|err];
    cbn; [|auto].
  destruct (negb (response_ok resp) || data_error resp); cbn; [auto|].
  destruct (users_doc_get w u) as [[d|]|err]; cbn; [|auto|auto].
  destruct (auth_createCustomToken w u) as [tok|err]; cbn; [|auto].
  split; [reflexivity|]. left. eexists. reflexivity.
Qed.

(** X10. [verifyPassword] returns exactly when the account exists, the
    sign-in endpoint, called with the configured API key, answers with an
    ok status and no [error] field, the user's document exists and a custom
    token is created; it returns that document with that token, issued for
    the uid of the account. *)
Theorem verifyPassword_returns_iff w (mail pw : string) (resp : AuthResponse)
    st :
  fst (verifyPassword w mail pw st) = Return resp <->
  exists u sign,
    auth_getUserByEmail w mail = Fulfilled u /\
    identitytoolkit_signInWithPassword w
      (config_get w "FIREBASE_API_KEY") mail pw = Fulfilled sign /\
    response_ok sign = true /\ data_error sign = false /\
    users_doc_get w u = Fulfilled (Some (auth_user resp)) /\
    auth_createCustomToken w u = Fulfilled (customToken resp).
Proof.
  unfold verifyPassword, try_catch, bind, await. split.
  - destruct (auth_getUserByEmail w mail) as [u|err] eqn:Hauth; cbn;
      [|discriminate].
    destruct (identitytoolkit_signInWithPassword w _ mail pw) as [sign|err]
      eqn:Hsign; cbn; [|discriminate].
    destruct (response_ok sign) eqn:Hok, (data_error sign) eqn:Herr; cbn;
      try discriminate.
    destruct (users_doc_get w u) as [[d|]|err] eqn:Hdoc; cbn;
      try discriminate.
    destruct (auth_createCustomToken w u) as [tok|err] eqn:Htok; cbn;
      [|discriminate].
    intros [= <-]. exists u, sign. cbn. repeat split; assumption.
  - intros (u & sign & -> & -> & Hok & Herr & -> & ->). cbn.
    rewrite Hok, Herr. cbn. destruct resp. reflexivity.
Qed.

(** X11. Every failure of [createUserRecord] reaches the caller as a
    [BadRequestException] without a code, whether the account creation or
    the write of the document failed.  The three codes
    ['auth/email-already-exists'], ['auth/invalid-email'] and
    ['auth/weak-password'] give fixed messages; any other failure gives the
    platform's message, or ['Failed to create user'] when it is empty. *)
Theorem createUserRecord_errors w (userData : CreateUserInput)
    (thrown : JsError) st :
  fst (createUserRecord w userData st) = Throw thrown ->
  snd (createUserRecord w userData st) = st /\
  err_class thrown = BadRequestException /\
  err_code thrown = None /\
  exists err,
    (auth_createUser w {| cr_email := cu_email userData;
                          cr_password := cu_password userData;
                          cr_displayName := cu_username userData |}
       = Rejected err \/
     exists u, users_doc_set w u
                 (createUserRecord_userRecord (Date_now w) u userData)
               = Rejected err) /\
    err_message thrown =
      if bool_decide (err_code err = Some "auth/email-already-exists"%string)
      then "Email already exists"%string
      else if bool_decide (err_code err = Some "auth/invalid-email"%string)
      then "Invalid email format"%string
      else if bool_decide (err_code err = Some "auth/weak-password"%string)
      then "Password is too weak"%string
      else or_else (err_message err) "Failed to create user".
Proof.
  unfold createUserRecord, try_catch, bind, await.
  assert (Hh : forall err : JsError,
    let r := (if bool_decide (err_code err
                              = Some "auth/email-already-exists"%string)
       then throw (new_Exception BadRequestException "Email already exists")
       else if bool_decide (err_code err = Some "auth/invalid-email"%string)
       then throw (new_Exception BadRequestException "Invalid email format")
       else if bool_decide (err_code err = Some "auth/weak-password"%string)
       then throw (new_Exception BadRequestException "Password is too weak")
       else throw (new_Exception BadRequestException
                     (or_else (err_message err) "Failed to create user")))
          st : Outcome UserRecord * ResetCodes in
    fst r = Throw thrown ->
    snd r = st /\ err_class thrown = BadRequestException /\
    err_code thrown = None /\
    err_message thrown =
      if bool_decide (err_code err = Some "auth/email-already-exists"%string)
      then "Email already exists"%string
      else if bool_decide (err_code err = Some "auth/invalid-email"%string)
      then "Invalid email format"%string
      else if bool_decide (err_code err = Some "auth/weak-password"%string)
      then "Password is too weak"%string
      else or_else (err_message err) "Failed to create user").
  { intros err. cbn zeta.
    repeat (destruct (bool_decide _)); cbn; intros [= <-]; auto. }
  destruct (auth_createUser w _) as [u|err] eqn:Ha; cbn.
  - destruct (users_doc_set w u _) as [[]|err] eqn:Hs; cbn; [discriminate|].
    intros H. destruct (Hh err H) as (? & ? & ? & ?).
    repeat split; try assumption. exists err. split; [|assumption].
    right. exists u. exact Hs.
  - intros H. destruct (Hh err H) as (? & ? & ? & ?).
    repeat split; try assumption. exists err. split; [|assumption].
    left. reflexivity.
Qed.


Lemma createUserRecord_errors_witness :
  let userData := {| cu_username := "sam"; cu_email := "a@x.com";
                     cu_password := "abc"; cu_role := Some "customer"%string;
                     cu_shopName := None; cu_location := None;
                     cu_firstName := Some "Sam"%string;
                     cu_lastName := None |} in
  let w := sample_platform 0 one_half true true in
  let thrown := new_Exception BadRequestException "Password is too weak" in
  snd (createUserRecord w userData ∅) = ∅ /\
  err_class thrown = BadRequestException /\
  err_code thrown = None /\
  exists err,
    (auth_createUser w {| cr_email := cu_email userData;
                          cr_password := cu_password userData;
                          cr_displayName := cu_username userData |}
       = Rejected err \/
     exists u, users_doc_set w u
                 (createUserRecord_userRecord (Date_now w) u userData)
               = Rejected err) /\
    err_message thrown =
      if bool_decide (err_code err = Some "auth/email-already-exists"%string)
      then "Email already exists"%string
      else if bool_decide (err_code err = Some "auth/invalid-email"%string)
      then "Invalid email format"%string
      else if bool_decide (err_code err = Some "auth/weak-password"%string)
      then "Password is too weak"%string
      else or_else (err_message err) "Failed to create user".
Proof.
  cbn zeta.
  apply (createUserRecord_errors (sample_platform 0 one_half true true)
           {| cu_username := "sam"; cu_email := "a@x.com";
              cu_password := "abc"; cu_role := Some "customer"%string;
              cu_shopName := None; cu_location := None;
              cu_firstName := Some "Sam"%string; cu_lastName := None |}
           (new_Exception BadRequestException "Password is too weak") ∅).
  reflexivity.
Defined.

(** X12. When the account is created and its document written,
    [createUserRecord] returns the record it wrote: the uid the platform
    assigned, the caller's username, email and role; [shopName] and
    [location] are set only for role ['shop_owner'], a [profile] (holding
    the caller's first and last name) only for role ['customer']. *)
Theorem createUserRecord_returns w (userData : CreateUserInput) (u : string)
    st :
  auth_createUser w {| cr_email := cu_email userData;
                       cr_password := cu_password userData;
                       cr_displayName := cu_username userData |}
    = Fulfilled u ->
  users_doc_set w u (createUserRecord_userRecord (Date_now w) u userData)
    = Fulfilled tt ->
  exists rec,
    createUserRecord w userData st = (Return rec, st) /\
    rec = createUserRecord_userRecord (Date_now w) u userData /\
    uid rec = u /\ username rec = cu_username userData /\
    email rec = cu_email userData /\ role rec = cu_role userData /\
    (cu_role userData = Some "shop_owner"%string ->
       shopName rec = cu_shopName userData /\
       location rec = cu_location userData /\ profile rec = None) /\
    (cu_role userData = Some "customer"%string ->
       shopName rec = None /\ location rec = None /\
       exists p, profile rec = Some p /\
                 firstName p = cu_firstName userData /\
                 lastName p = cu_lastName userData) /\
    (cu_role userData <> Some "shop_owner"%string ->
     cu_role userData <> Some "customer"%string ->
       shopName rec = None /\ location rec = None /\ profile rec = None).
Proof.
  intros Ha Hs. eexists. split.
  - unfold createUserRecord, try_catch, bind, await. rewrite Ha, Hs.
    reflexivity.
  - split; [reflexivity|]. unfold createUserRecord_userRecord.
    destruct (bool_decide (cu_role userData = Some "shop_owner"%string))
      eqn:H1.
    + apply bool_decide_eq_true in H1. cbn.
      repeat (split; [reflexivity|]). split; [auto|].
      split; [|contradiction]. rewrite H1. discriminate.
    + apply bool_decide_eq_false in H1.
      destruct (bool_decide (cu_role userData = Some "customer"%string))
        eqn:H2.
      * apply bool_decide_eq_true in H2. cbn.
        repeat (split; [reflexivity|]). split; [contradiction|].
        split; [|contradiction]. intros _.
        split; [reflexivity|]. split; [reflexivity|].
        eexists. split; [reflexivity|]. split; reflexivity.
      * apply bool_decide_eq_false in H2. cbn.
        repeat (split; [reflexivity|]). split; [contradiction|].
        split; [contradiction|]. auto.
Qed.

Lemma createUserRecord_returns_witness :
  let userData := {| cu_username := "sam"; cu_email := "a@x.com";
                     cu_password := "NewPass1!";
                     cu_role := Some "shop_owner"%string;
                     cu_shopName := Some "Glam"%string;
                     cu_location := Some "Cebu"%string;
                     cu_firstName := Some "Sam"%string;
                     cu_lastName := None |} in
  let w := sample_platform 7 one_half true true in
  exists rec,
    createUserRecord w userData ∅ = (Return rec, ∅) /\
    rec = createUserRecord_userRecord (Date_now w) "uid:a@x.com" userData /\
    uid rec = "uid:a@x.com"%string /\ username rec = cu_username userData /\
    email rec = cu_email userData /\ role rec = cu_role userData /\
    (cu_role userData = Some "shop_owner"%string ->
       shopName rec = cu_shopName userData /\
       location rec = cu_location userData /\ profile rec = None) /\
    (cu_role userData = Some "customer"%string ->
       shopName rec = None /\ location rec = None /\
       exists p, profile rec = Some p /\
                 firstName p = cu_firstName userData /\
                 lastName p = cu_lastName userData) /\
    (cu_role userData <> Some "shop_owner"%string ->
     cu_role userData <> Some "customer"%string ->
       shopName rec = None /\ location rec = None /\ profile rec = None).
Proof.
  cbn zeta.
  apply (createUserRecord_returns (sample_platform 7 one_half true true)
           {| cu_username := "sam"; cu_email := "a@x.com";
              cu_password := "NewPass1!";
              cu_role := Some "shop_owner"%string;
              cu_shopName := Some "Glam"%string;
              cu_location := Some "Cebu"%string;
              cu_firstName := Some "Sam"%string; cu_lastName := None |}
           "uid:a@x.com" ∅).
  - reflexivity.
  - reflexivity.
Defined.

End Accounts.

(** * Profile updates *)

Section ProfileUpdates.

Implicit Types (w : Platform) (st : ResetCodes) (pd : Profile).

(** What [updateData] holds under a key. *)
Lemma updateData_lookup (now : Z) pd (k : string) :
  updateUserProfile_updateData now pd !! k =
    if bool_decide (k = "profile.address"%string)
    then FAddress <$> address pd
    else if bool_decide (k = "profile.lastName"%string)
    then FString <$> lastName pd
    else if bool_decide (k = "profile.firstName"%string)
    then FString <$> firstName pd
    else if bool_decide (k = "profile.bio"%string)
    then FString <$> bio pd
    else if bool_decide (k = "profile.photoURL"%string)
    then FString <$> photoURL pd
    else if bool_decide (k = "updatedAt"%string)
    then Some (FDate now)
    else None.
Proof.
  unfold updateUserProfile_updateData.
  destruct pd as [fn ln ph bi ad]; cbn [address lastName firstName bio photoURL].
  repeat case_bool_decide; subst;
    destruct ad, ln, fn, bi, ph; cbn [fmap option_fmap option_map];
    repeat (rewrite lookup_insert_eq || (rewrite lookup_insert_ne by congruence));
    try reflexivity;
    try (rewrite lookup_singleton_eq; reflexivity);
    try (rewrite lookup_singleton_ne by congruence; reflexivity).
Qed.

Ltac lookup_key :=
  rewrite updateData_lookup;
  repeat (rewrite bool_decide_eq_false_2 by discriminate);
  rewrite ?bool_decide_eq_true_2 by reflexivity;
  reflexivity.

(** X13. The object [updateUserProfile] sends to Firestore holds
    [updatedAt], set to the time of the call, and one ['profile.<field>']
    key for each field the caller provided, with the caller's value;
    fields the caller left out are not written, and no other key is. *)
Theorem updateData_keys (now : Z) pd :
  let updateData := updateUserProfile_updateData now pd in
  updateData !! "updatedAt"%string = Some (FDate now) /\
  updateData !! "profile.photoURL"%string = FString <$> photoURL pd /\
  updateData !! "profile.bio"%string = FString <$> bio pd /\
  updateData !! "profile.firstName"%string = FString <$> firstName pd /\
  updateData !! "profile.lastName"%string = FString <$> lastName pd /\
  updateData !! "profile.address"%string = FAddress <$> address pd /\
  forall k : string,
    k ∉ ["updatedAt"; "profile.photoURL"; "profile.bio";
         "profile.firstName"; "profile.lastName";
         "profile.address"]%string ->
    updateData !! k = None.
Proof.
  cbn zeta. repeat split; try lookup_key.
  intros k Hk. rewrite updateData_lookup.
  repeat (rewrite bool_decide_eq_false_2; [|intros ->; apply Hk; set_solver]).
  reflexivity.
Qed.


(** X14. [updateUserProfile] returns exactly when the user's document
    exists, the Firestore update succeeds and, for a non-empty [photoURL],
    the update of the auth profile succeeds as well.  In every other case,
    a missing user included, it throws the one error
    ['Failed to update user profile']. *)
Theorem updateUserProfile_outcome w (userId : string) pd st :
  snd (updateUserProfile w userId pd st) = st /\
  (fst (updateUserProfile w userId pd st) = Return tt \/
   fst (updateUserProfile w userId pd st)
     = Throw (new_Error "Failed to update user profile")) /\
  (fst (updateUserProfile w userId pd st) = Return tt <->
   (exists d, users_doc_get w userId = Fulfilled (Some d)) /\
   users_doc_update w userId
     (updateUserProfile_updateData (Date_now w) pd) = Fulfilled tt /\
   (forall url, photoURL pd = Some url -> url <> ""%string ->
      auth_updateUser w userId
        {| upd_password := None; upd_photoURL := Some url |}
      = Fulfilled tt)).
Proof.
  unfold updateUserProfile, try_catch, bind, await.
  destruct (users_doc_get w userId) as [[d|]|err]; cbn.
  - destruct (users_doc_update w userId _) as [[]|err]; cbn.
    + destruct (photoURL pd) as [url|]; cbn.
      * destruct (String.eqb_spec url "") as [->|Hne]; cbn.
        -- split; [reflexivity|]. split; [auto|]. split; [|reflexivity].
           intros _. split; [eauto|]. split; [reflexivity|].
           intros url [= <-] Hn. contradiction.
        -- destruct (auth_updateUser w userId _) as [[]|err] eqn:Hup; cbn.
           ++ split; [reflexivity|]. split; [auto|]. split; [|reflexivity].
              intros _. split; [eauto|]. split; [reflexivity|].
              intros url' [= <-] _. exact Hup.
           ++ split; [reflexivity|]. split; [auto|]. split; [discriminate|].
              intros (_ & _ & H). specialize (H url eq_refl Hne).
              rewrite Hup in H. discriminate H.
      * split; [reflexivity|]. split; [auto|]. split; [|reflexivity].
        intros _. split; [eauto|]. split; [reflexivity|]. discriminate.
    + split; [reflexivity|]. split; [auto|]. split; [discriminate|].
      intros (_ & H & _). discriminate H.
  - split; [reflexivity|]. split; [auto|]. split; [discriminate|].
    intros ((d & H) & _). discriminate H.
  - split; [reflexivity|]. split; [auto|]. split; [discriminate|].
    intros ((d & H) & _). discriminate H.
Qed.

(** X15. An empty [photoURL] is written to the document, under
    ['profile.photoURL'], but is not passed on to the identity platform:
    with an empty or absent [photoURL] the outcome is the same whatever
    [auth.updateUser] would answer. *)
Theorem updateUserProfile_blank_photo w w' (userId : string) pd st :
  photoURL pd = None \/ photoURL pd = Some ""%string ->
  Date_now w = Date_now w' ->
  users_doc_get w userId = users_doc_get w' userId ->
  (forall d, users_doc_update w userId d = users_doc_update w' userId d) ->
  updateUserProfile w userId pd st = updateUserProfile w' userId pd st /\
  updateUserProfile_updateData (Date_now w) pd !! "profile.photoURL"%string
    = FString <$> photoURL pd.
Proof.
  intros Hp Hnow Hget Hupd. split.
  - unfold updateUserProfile, try_catch, bind, await.
    rewrite Hnow, Hget, Hupd.
    destruct Hp as [-> | ->]; reflexivity.
  - lookup_key.
Qed.

Lemma updateUserProfile_blank_photo_witness :
  let pd := {| firstName := Some "Sam"%string; lastName := None;
               photoURL := Some ""%string; bio := None; address := None |} in
  let w := sample_platform 5 one_half true true in
  let w' := {| Date_now := 5;
               Math_random := one_half;
               config_get := config_get w;
               email_sendPasswordResetCode := email_sendPasswordResetCode w;
               auth_getUserByEmail := auth_getUserByEmail w;
               auth_createUser := auth_createUser w;
               auth_updateUser := fun _ _ => Rejected weak_password;
               auth_createCustomToken := auth_createCustomToken w;
               identitytoolkit_signInWithPassword :=
                 identitytoolkit_signInWithPassword w;
               users_doc_get := users_doc_get w;
               users_doc_set := users_doc_set w;
               users_doc_update := users_doc_update w;
               doc_get := doc_get w;
               collection_get := collection_get w |} in
  updateUserProfile w "u1" pd ∅ = updateUserProfile w' "u1" pd ∅ /\
  updateUserProfile_updateData (Date_now w) pd !! "profile.photoURL"%string
    = FString <$> photoURL pd.
Proof.
  cbn zeta.
  apply updateUserProfile_blank_photo.
  - right. reflexivity.
  - reflexivity.
  - reflexivity.
  - intros d. reflexivity.
Defined.

End ProfileUpdates.

(** * Generic document reads *)

Section Documents.

Implicit Types (w : Platform) (st : ResetCodes) (data : JsObject).

(** The object built by [{ id: doc.id, ...doc.data() }]. *)
Lemma with_id_lookup (id : string) data (k : string) :
  with_id id data !! k =
    match data !! k with
    | Some v => Some v
    | None => if bool_decide (k = "id"%string) then Some (VString id) else None
    end.
Proof.
  unfold with_id. rewrite lookup_union.
  destruct (data !! k) as [v|] eqn:Hk.
  - destruct ({[ "id"%string := VString id ]} !! k); reflexivity.
  - case_bool_decide as Hid.
    + subst k. rewrite lookup_singleton_eq. reflexivity.
    + rewrite lookup_singleton_ne by congruence. reflexivity.
Qed.


(** X17. [findAll] returns one object per document of the collection, in
    the order of the snapshot; each holds the fields of its document, and
    its document id under [id] unless the data has an [id] field. *)
Theorem findAll_outcome w (collection : string)
    (docs : list (string * JsObject)) st :
  collection_get w collection = Fulfilled docs ->
  exists objs,
    findAll w collection st = (Return objs, st) /\
    length objs = length docs /\
    forall (i : nat) (id : string) data,
      docs !! i = Some (id, data) ->
      exists obj,
        objs !! i = Some obj /\
        (forall k, k <> "id"%string -> obj !! k = data !! k) /\
        obj !! "id"%string
          = Some (default (VString id) (data !! "id"%string)).
Proof.
  intros Hc. eexists. split.
  - unfold findAll, bind, await. rewrite Hc. reflexivity.
  - split; [apply length_map|].
    intros i id data Hi. eexists. split.
    + rewrite list_lookup_fmap, Hi. reflexivity.
    + cbn [fst snd]. split.
      * intros k Hk. rewrite with_id_lookup.
        rewrite bool_decide_eq_false_2 by assumption.
        destruct (data !! k); reflexivity.
      * rewrite with_id_lookup. rewrite bool_decide_eq_true_2 by reflexivity.
        destruct (data !! "id"%string); reflexivity.
Qed.

Lemma findAll_outcome_witness :
  let docs : list (string * JsObject) :=
    [("p1"%string, {[ "name"%string := VString "Gown" ]})] in
  exists objs,
    findAll (sample_platform 0 one_half true true) "products" ∅
      = (Return objs, ∅) /\
    length objs = length docs /\
    forall (i : nat) (id : string) (data : JsObject),
      docs !! i = Some (id, data) ->
      exists obj,
        objs !! i = Some obj /\
        (forall k, k <> "id"%string -> obj !! k = data !! k) /\
        obj !! "id"%string
          = Some (default (VString id) (data !! "id"%string)).
Proof.
  cbn zeta.
  apply (findAll_outcome (sample_platform 0 one_half true true) "products").
  reflexivity.
Defined.

End Documents.

(** * Growth of the map of codes *)

Section MapGrowth.

Implicit Types (w : Platform) (st : ResetCodes).

(** X18. Only [sendPasswordResetCode] adds to the map, and only the key of
    its recipient; [verifyPasswordResetCode] and [resetPassword] never add
    a key.  Entries of abandoned flows are removed only when that same
    recipient is verified after expiry or resets the password. *)
Theorem map_keys_after_call w (r code pw : string) st :
  dom (snd (sendPasswordResetCode w r st)) ⊆ {[ r ]} ∪ dom st /\
  dom st ⊆ dom (snd (sendPasswordResetCode w r st)) /\
  dom (snd (verifyPasswordResetCode w r code st)) ⊆ dom st /\
  dom st ∖ {[ r ]} ⊆ dom (snd (verifyPasswordResetCode w r code st)) /\
  dom (snd (resetPassword w r code pw st)) ⊆ dom st /\
  dom st ∖ {[ r ]} ⊆ dom (snd (resetPassword w r code pw st)).
Proof.
  pose proof (send_state w r st) as Hs.
  pose proof (verify_state w r code st) as Hv.
  pose proof (reset_state w r code pw st) as Hr.
  assert (Hdel : dom (delete r st) ⊆ dom st /\
                 dom st ∖ {[ r ]} ⊆ dom (delete r st)).
  { rewrite dom_delete_L. split; [apply subseteq_difference_l|]; reflexivity. }
  assert (Hid : dom st ⊆ dom st /\ dom st ∖ {[ r ]} ⊆ dom st).
  { split; [|apply subseteq_difference_l]; reflexivity. }
  split; [|split].
  - destruct Hs as [->|[e ->]]; [apply union_subseteq_r|].
    rewrite dom_insert_L. reflexivity.
  - destruct Hs as [->|[e ->]]; [reflexivity|].
    rewrite dom_insert_L. apply union_subseteq_r.
  - destruct Hv as [->| ->], Hr as [->| ->]; tauto.
Qed.

End MapGrowth.
